(** * Spaghetti-plot notebook: the computations the cells perform

    A shallow embedding of the code cells of the cookbook chapter
    "Spaghetti Plots" (hurricane tracks and geopotential-height contours).
    The notebook defines no function of its own; each cell is straight-line
    Python over values returned by numpy, matplotlib, cartopy, tropycal and
    xarray.  The cells are embedded as Rocq functions of the values they
    read, Python exceptions are an explicit error result, and the pyplot
    "current axes" is an explicit state that is threaded through the calls. *)

From Stdlib Require Import ZArith QArith Qround List String Ascii Bool Lia Lqa.
From Stdlib Require Import DecimalString.
Import ListNotations.

Set Implicit Arguments.

(** ** Python built-ins used by the cells *)

Module Py.

(** The exceptions the modelled fragment can raise. *)
Inductive exn : Type :=
| ZeroDivisionError
| IndexError
| KeyError (key : string)
| NameError (name : string)
| TypeError
| ValueError.

Inductive result (A : Type) : Type :=
| Ok (a : A)
| Raise (e : exn).

Arguments Ok {A} a.
Arguments Raise {A} e.

Definition bind {A B : Type} (r : result A) (k : A -> result B) : result B :=
  match r with
  | Ok a => k a
  | Raise e => Raise e
  end.

(** A list comprehension whose body may raise: the elements are evaluated
    left to right and the first exception aborts the whole comprehension.
    Over an empty list the body is never evaluated. *)
Fixpoint comprehension {A B : Type} (body : A -> result B) (l : list A)
  : result (list B) :=
  match l with
  | [] => Ok []
  | x :: l' =>
      bind (body x) (fun y =>
      bind (comprehension body l') (fun ys => Ok (y :: ys)))
  end.

(** [range(start, stop)] with the default step 1. *)
Definition range (start stop : Z) : list Z :=
  map (fun k => start + Z.of_nat k)%Z (seq 0 (Z.to_nat (stop - start))).

(** [len(l)] as a Python int. *)
Definition len {A : Type} (l : list A) : Z := Z.of_nat (List.length l).

(** [l[i]]: a negative index counts from the end, an index outside
    [-len(l) .. len(l)-1] raises IndexError. *)
Definition getitem {A : Type} (l : list A) (i : Z) : result A :=
  let j := if (i <? 0)%Z then (i + len l)%Z else i in
  if (j <? 0)%Z then Raise IndexError
  else match nth_error l (Z.to_nat j) with
       | Some a => Ok a
       | None => Raise IndexError
       end.

(** [str(i)] of an int, which is also what ['%d' % i] prints. *)
Definition str (i : Z) : string := NilEmpty.string_of_int (Z.to_int i).

Fixpoint zeros (n : nat) : string :=
  match n with
  | O => EmptyString
  | S n' => String "0" (zeros n')
  end.

(** [s.zfill(width)]: zeros are added on the left up to [width]
    characters; a leading sign stays in front of the zeros; a string that
    is already long enough is returned as it is. *)
Definition zfill (s : string) (width : nat) : string :=
  let pad := zeros (width - String.length s) in
  match s with
  | String c rest =>
      if (Ascii.eqb c "+" || Ascii.eqb c "-")%bool
      then String c (pad ++ rest)%string
      else (pad ++ s)%string
  | EmptyString => pad
  end.

(** [zip(a, b, c)] stops at the shortest argument. *)
Fixpoint zip3 {A B C : Type} (a : list A) (b : list B) (c : list C)
  : list (A * B * C) :=
  match a, b, c with
  | x :: a', y :: b', z :: c' => (x, y, z) :: zip3 a' b' c'
  | _, _, _ => []
  end.

(** A dict: the entries in insertion order, which is the order a
    [for] loop over the dict visits the keys in.  A Python dict holds a
    key once ([wf]). *)
Definition dict (V : Type) : Type := list (string * V).

Definition keys {V : Type} (d : dict V) : list string := map fst d.

Definition wf {V : Type} (d : dict V) : Prop := NoDup (keys d).

(** [d[k]] raises KeyError on a missing key. *)
Fixpoint lookup {V : Type} (d : dict V) (k : string) : result V :=
  match d with
  | [] => Raise (KeyError k)
  | (k', v) :: d' => if String.eqb k' k then Ok v else lookup d' k
  end.

End Py.

Declare Scope py_scope.
Notation "x <- c1 ;; c2" := (Py.bind c1 (fun x => c2))
  (at level 61, c1 at next level, right associativity) : py_scope.
Delimit Scope py_scope with py.

(** ** numpy *)

Module Np.

(** [np.arange(start, stop, step)] over ints: [ceil((stop - start)/step)]
    elements [start + k*step].  A zero step raises ZeroDivisionError. *)
Definition arange (start stop step : Z) : Py.result (list Z) :=
  if (step =? 0)%Z then Py.Raise Py.ZeroDivisionError
  else
    let n := Z.to_nat (- ((start - stop) / step))%Z in
    Py.Ok (map (fun k => start + Z.of_nat k * step)%Z (seq 0 n)).

(** [np.arange(start, stop)] over floats with the default step 1:
    [ceil(stop - start)] elements [start + k]. *)
Definition arange_float (start stop : Q) : list Q :=
  map (fun k => start + inject_Z (Z.of_nat k))
      (seq 0 (Z.to_nat (Qceiling (stop - start)))).

(** [np.full_like(a, v)]: the shape of [a], every entry [v]. *)
Definition full_like {A B : Type} (a : list A) (v : B) : list B :=
  map (fun _ => v) a.

End Np.

(** ** matplotlib: the pyplot state machine and colormaps *)

Module Mpl.

Inductive color : Type :=
| Named (name : string)
| RGBA (r g b a : Q).

(** A line artist: what one [plot(x, y, ...)] call over 1-D data adds. *)
Record Line2D : Type := mkLine2D {
  xdata : list Q;
  ydata : list Q;
  line_color : color;
  linewidth : Q;
  line_label : option string
}.

(** A text artist: what one [ax.text(x, y, s, ...)] call adds. *)
Record Text : Type := mkText {
  text_x : Z;
  text_y : Z;
  text_s : string;
  fontsize : Z;
  horizontalalignment : string;
  verticalalignment : string;
  transform : string
}.

(** An Axes with its line artists, its text artists, and the names of the
    other artists it holds (features, gridliners, legends). *)
Record Axes : Type := mkAxes {
  projection : string;
  lines : list Line2D;
  texts : list Text;
  artists : list string;
  title : option string
}.

Definition new_axes (proj : string) : Axes :=
  mkAxes proj [] [] [] None.

(** pyplot's implicit state: the Axes of the current figure in creation
    order, and which of them is current.  An [ax] handle held by the
    notebook is the position of that Axes. *)
Record pyplot : Type := mkPyplot {
  all_axes : list Axes;
  current : option nat
}.

Fixpoint alter {A : Type} (f : A -> A) (i : nat) (l : list A) : list A :=
  match l, i with
  | [], _ => []
  | x :: l', O => f x :: l'
  | x :: l', S i' => x :: alter f i' l'
  end.

Definition on_axes (ax : nat) (f : Axes -> Axes) (st : pyplot) : pyplot :=
  mkPyplot (alter f ax (all_axes st)) (current st).

(** [plt.axes(projection=proj)]: adds an Axes to the current figure and
    makes it the current Axes; returns its handle. *)
Definition axes (proj : string) (st : pyplot) : pyplot * nat :=
  let ax := List.length (all_axes st) in
  (mkPyplot (all_axes st ++ [new_axes proj]) (Some ax), ax).

(** [plt.gca()]: the current Axes; one is created when there is none. *)
Definition gca (st : pyplot) : pyplot * nat :=
  match current st with
  | Some ax => (st, ax)
  | None => axes "rectilinear" st
  end.

Definition add_line (ln : Line2D) (a : Axes) : Axes :=
  mkAxes (projection a) (lines a ++ [ln]) (texts a) (artists a) (title a).

Definition add_text (t : Text) (a : Axes) : Axes :=
  mkAxes (projection a) (lines a) (texts a ++ [t]) (artists a) (title a).

Definition add_artist (name : string) (a : Axes) : Axes :=
  mkAxes (projection a) (lines a) (texts a) (artists a ++ [name]) (title a).

Definition set_title (s : string) (a : Axes) : Axes :=
  mkAxes (projection a) (lines a) (texts a) (artists a) (Some s).

(** [plt.plot(x, y, color=, linewidth=, label=)]: one new line on the
    current Axes, and the call returns the list holding that line; when [x]
    and [y] differ in length the call raises ValueError ("x and y must have
    same first dimension") and adds nothing. *)
Definition plot (x y : list Q) (c : color) (lw : Q) (lbl : option string)
    (st : pyplot) : pyplot * Py.result (list Line2D) :=
  let '(st1, ax) := gca st in
  if (List.length x =? List.length y)%nat then
    let ln := mkLine2D x y c lw lbl in
    (on_axes ax (add_line ln) st1, Py.Ok [ln])
  else (st1, Py.Raise Py.ValueError).

(** [ax.text(x, y, s, fontsize=, horizontalalignment=,
    verticalalignment=, transform=)]. *)
Definition text (ax : nat) (t : Text) (st : pyplot) : pyplot :=
  on_axes ax (add_text t) st.

(** [ax.add_feature], [ax.gridlines] and [plt.legend] add one artist that
    is not a line. *)
Definition add_feature (ax : nat) (name : string) (st : pyplot) : pyplot :=
  on_axes ax (add_artist name) st.

Definition gridlines (ax : nat) (st : pyplot) : pyplot :=
  on_axes ax (add_artist "Gridliner") st.

Definition legend (st : pyplot) : pyplot :=
  let '(st1, ax) := gca st in on_axes ax (add_artist "Legend") st1.

Definition plt_title (s : string) (st : pyplot) : pyplot :=
  let '(st1, ax) := gca st in on_axes ax (set_title s) st1.

(** [mpl.colors.ListedColormap(colors)]: [N] is the number of colors. *)
Record ListedColormap : Type := mkListedColormap {
  colors : list color
}.

Definition N (cm : ListedColormap) : Z := Py.len (colors cm).

(** The lookup-table entry an int argument selects: an index below 0
    takes the "under" color and one above [N-1] the "over" color, which by
    default are the first and the last color. *)
Definition lut_index (n c : Z) : Z :=
  if (c <? 0)%Z then 0%Z
  else if (n - 1 <? c)%Z then (n - 1)%Z
  else c.

(** [cmap(c)] for an int [c]. *)
Definition call_int (cm : ListedColormap) (c : Z) : color :=
  nth (Z.to_nat (lut_index (N cm) c)) (colors cm) (RGBA 0 0 0 0).

(** [plt.Normalize(vmin, vmax)] applied to [v]. *)
Definition Normalize (vmin vmax v : Q) : Q :=
  (v - vmin) / (vmax - vmin).

(** The entry of an [n]-color colormap that a float [x] selects:
    [x * n] truncated, where [x = 1] still takes the last color and
    values outside [0, 1] take the under and over colors. *)
Inductive lut_entry : Type :=
| Under
| Over
| Entry (j : Z).

Definition call_float (n : Z) (x : Q) : lut_entry :=
  let xa := x * inject_Z n in
  if Qlt_le_dec xa 0 then Under
  else if Qeq_bool xa (inject_Z n) then Entry (n - 1)
  else let j := Qfloor xa in
       if (n - 1 <? j)%Z then Over else Entry j.

(** The color boxes of a colorbar over [Normalize(vmin, vmax)] with an
    [n]-color colormap: box [j] is the range of data values drawn in color
    [j], that is [vmin + j*w .. vmin + (j+1)*w] for [w = (vmax-vmin)/n]. *)
Definition box_lo (n : Z) (vmin vmax : Q) (j : Z) : Q :=
  vmin + inject_Z j * ((vmax - vmin) / inject_Z n).

Definition box_hi (n : Z) (vmin vmax : Q) (j : Z) : Q :=
  vmin + inject_Z (j + 1) * ((vmax - vmin) / inject_Z n).

Definition box_mid (n : Z) (vmin vmax : Q) (j : Z) : Q :=
  (box_lo n vmin vmax j + box_hi n vmin vmax j) / 2.

End Mpl.

(** ** Running a cell

    A cell is a computation over the pyplot state that may raise.  An
    exception stops the cell, and what the cell did to the figure before it
    stays done: the state is returned next to the outcome. *)

Module Nb.

Definition cell (A : Type) : Type :=
  Mpl.pyplot -> Mpl.pyplot * Py.result A.

Definition ret {A : Type} (a : A) : cell A :=
  fun st => (st, Py.Ok a).

Definition bind {A B : Type} (m : cell A) (k : A -> cell B) : cell B :=
  fun st =>
    match m st with
    | (st', Py.Ok a) => k a st'
    | (st', Py.Raise e) => (st', Py.Raise e)
    end.

(** A pure expression that may raise. *)
Definition lift {A : Type} (r : Py.result A) : cell A :=
  fun st => (st, r).

(** A pyplot call that returns a value. *)
Definition call {A : Type} (f : Mpl.pyplot -> Mpl.pyplot * A) : cell A :=
  fun st => let '(st', a) := f st in (st', Py.Ok a).

(** A pyplot call whose value the cell drops. *)
Definition exec (f : Mpl.pyplot -> Mpl.pyplot) : cell unit :=
  fun st => (f st, Py.Ok tt).

(** [for x in l: body], the variables the body assigns being [acc]. *)
Fixpoint for_each {A Acc : Type} (l : list A) (body : A -> Acc -> cell Acc)
    (acc : Acc) : cell Acc :=
  match l with
  | [] => ret acc
  | x :: l' => bind (body x acc) (fun acc' => for_each l' body acc')
  end.

(** Reading a variable that only a loop body assigns. *)
Definition name {A : Type} (v : option A) (x : string) : Py.result A :=
  match v with
  | Some a => Py.Ok a
  | None => Py.Raise (Py.NameError x)
  end.

End Nb.

Declare Scope cell_scope.
Notation "x <- c1 ;; c2" := (Nb.bind c1 (fun x => c2))
  (at level 61, c1 at next level, right associativity) : cell_scope.
Notation "c1 ;; c2" := (Nb.bind c1 (fun _ => c2))
  (at level 61, right associativity) : cell_scope.
Delimit Scope cell_scope with cell.

(** ** The cells of the notebook *)

Module Spaghetti.

Import Py.
Local Open Scope string_scope.

(** What tropycal hands out per forecast initialization (and the storm's
    own track): longitudes and latitudes along the path. *)
Record Track : Type := mkTrack {
  lon : list Q;
  lat : list Q
}.

(** A [datetime] is a point on the time line and a [timedelta] a
    difference of two, both counted in microseconds. *)
Definition datetime : Type := Z.
Definition timedelta : Type := Z.

(** [a / b] of two timedeltas: the ratio as a number; a zero divisor
    raises ZeroDivisionError. *)
Definition timedelta_truediv (a b : timedelta) : result Q :=
  if (b =? 0)%Z then Raise ZeroDivisionError
  else Ok (inject_Z a / inject_Z b).

(** [normalized_times = [(i - times[0]) / (times[-1] - times[0])
                         for i in times]] *)
Definition normalized_times (times : list datetime) : result (list Q) :=
  comprehension
    (fun i : datetime =>
       (t0 <- getitem times 0 ;;
        tl <- getitem times (-1) ;;
        t0' <- getitem times 0 ;;
        timedelta_truediv (i - t0)%Z (tl - t0')%Z)%py)
    times.

(** [GFS_keys = ['AP' + str(i).zfill(2) for i in range(1, 21)]] *)
Definition GFS_keys : list string :=
  map (fun i => ("AP" ++ zfill (str i) 2)%string) (range 1 21).

(** [time = '2012102700'] *)
Definition time : string := "2012102700".

(** The first lines of every hurricane cell: a PlateCarree Axes with the
    land feature and a gridliner.  (The four [gl.] assignments that follow
    in the source set label options of that gridliner.) *)
Definition setup_axes : Nb.cell nat :=
  (ax <- Nb.call (Mpl.axes "PlateCarree") ;;
   Nb.exec (Mpl.add_feature ax "LAND") ;;
   Nb.exec (Mpl.gridlines ax) ;;
   Nb.ret ax)%cell.

Definition cornflowerblue : Mpl.color := Mpl.Named "cornflowerblue".

(** The body of the loop [for i in forecasts_AP01] of the first spaghetti
    plot; it assigns [forecast_path]. *)
Definition plot_forecast (forecasts_AP01 : dict Track) (i : string)
    (_ : option (list Mpl.Line2D)) : Nb.cell (option (list Mpl.Line2D)) :=
  (a <- Nb.lift (lookup forecasts_AP01 i) ;;
   b <- Nb.lift (lookup forecasts_AP01 i) ;;
   forecast_path <- Mpl.plot (lon a) (lat b) cornflowerblue (1#2) None ;;
   Nb.ret (Some forecast_path))%cell.

(** The cell "Spaghetti Plot of AP01 forecasts". *)
Definition spaghetti_AP01 (forecasts : dict (dict Track)) (sandy_ds : Track)
  : Nb.cell unit :=
  (ax <- setup_axes ;;
   forecasts_AP01 <- Nb.lift (lookup forecasts "AP01") ;;
   forecast_path <- Nb.for_each (keys forecasts_AP01)
                      (plot_forecast forecasts_AP01) None ;;
   true_path <- Mpl.plot (lon sandy_ds) (lat sandy_ds)
                           (Mpl.Named "k") 1 None ;;
   t0 <- Nb.lift (getitem true_path 0) ;;
   fp <- Nb.lift (Nb.name forecast_path "forecast_path") ;;
   f0 <- Nb.lift (getitem fp 0) ;;
   Nb.exec Mpl.legend ;;
   Nb.exec (Mpl.plt_title "Hurricane Sandy (2012)"))%cell.

(** The body of the loop [for i in range(20)] of the cell that plots all
    ensemble members at one initialization time. *)
Definition plot_member (forecasts : dict (dict Track)) (i : Z)
    (_ : option (list Mpl.Line2D)) : Nb.cell (option (list Mpl.Line2D)) :=
  (key <- Nb.lift (getitem GFS_keys i) ;;
   ap <- Nb.lift (lookup forecasts key) ;;
   a <- Nb.lift (lookup ap time) ;;
   b <- Nb.lift (lookup ap time) ;;
   forecast_path <- Mpl.plot (lon a) (lat b) cornflowerblue (1#2) None ;;
   Nb.ret (Some forecast_path))%cell.

(** The cell "Spaghetti Plot of All Ensemble Members at One Point in
    Time". *)
Definition spaghetti_members (forecasts : dict (dict Track))
    (sandy_ds : Track) : Nb.cell unit :=
  (ax <- setup_axes ;;
   forecast_path <- Nb.for_each (range 0 20) (plot_member forecasts) None ;;
   true_path <- Mpl.plot (lon sandy_ds) (lat sandy_ds)
                           (Mpl.Named "k") 1 None ;;
   t0 <- Nb.lift (getitem true_path 0) ;;
   fp <- Nb.lift (Nb.name forecast_path "forecast_path") ;;
   f0 <- Nb.lift (getitem fp 0) ;;
   Nb.exec Mpl.legend ;;
   Nb.exec (Mpl.plt_title "Hurricane Sandy - GFS Forecasts from Oct-27-2012"))%cell.

Section TemporalColormapping.

(** [datetime.datetime.strptime(s, '%Y%m%d%H')] and the colormap
    [plt.cm.autumn_r] belong to the libraries. *)
Variable strptime : string -> result datetime.
Variable autumn_r : Q -> Mpl.color.

(** [cmap = mpl.colors.ListedColormap(plt.cm.autumn_r(normalized_times))] *)
Definition temporal_cmap (normalized : list Q) : Mpl.ListedColormap :=
  Mpl.mkListedColormap (map autumn_r normalized).

(** The body of the loop with the counter [c]. *)
Definition plot_colored (forecasts_AP01 : dict Track)
    (cmap : Mpl.ListedColormap) (i : string) (c : Z) : Nb.cell Z :=
  (a <- Nb.lift (lookup forecasts_AP01 i) ;;
   b <- Nb.lift (lookup forecasts_AP01 i) ;;
   Mpl.plot (lon a) (lat b) (Mpl.call_int cmap c) (1#2) None ;;
   Nb.ret (c + 1)%Z)%cell.

(** The cell "Spaghetti Plot of One Ensemble Member with Temporal
    Colormapping", up to the title; the colorbar that the cell adds last
    is drawn on an Axes of its own. *)
Definition spaghetti_temporal (forecasts : dict (dict Track))
    (sandy_ds : Track) : Nb.cell unit :=
  (ax <- setup_axes ;;
   forecasts_AP01 <- Nb.lift (lookup forecasts "AP01") ;;
   times <- Nb.lift (comprehension strptime (keys forecasts_AP01)) ;;
   normalized <- Nb.lift (normalized_times times) ;;
   let cmap := temporal_cmap normalized in
   c <- Nb.for_each (keys forecasts_AP01)
          (plot_colored forecasts_AP01 cmap) 0%Z ;;
   true_path <- Mpl.plot (lon sandy_ds) (lat sandy_ds)
                           (Mpl.Named "red") 1 (Some "True Path") ;;
   Nb.exec Mpl.legend ;;
   Nb.exec (Mpl.plt_title "Hurricane Sandy"))%cell.

End TemporalColormapping.

(** *** Directional labels of the polar-stereographic cells *)

Definition keep_tick (tick : Z) : bool :=
  (negb (tick =? 0)%Z && negb (tick =? 180)%Z)%bool.

(** [labels = etick + wtick] *)
Definition labels : result (list string) :=
  (ticks <- Np.arange 0 210 30 ;;
   let etick := (["0"]
                 ++ map (fun tick => (str tick ++ "E")%string) (filter keep_tick ticks)
                 ++ ["180"])%list in
   let wtick := map (fun tick => (str tick ++ "W")%string) (filter keep_tick ticks) in
   Ok (etick ++ wtick)%list)%py.

(** [xticks = np.arange(0, 360, 30)] *)
Definition xticks : result (list Z) := Np.arange 0 360 30.

(** The [if / elif / else] of the label loop: the arguments of the one
    [ax.text] call the iteration makes. *)
Definition label_text (xtick ytick : Z) (label : string) : Mpl.Text :=
  if String.eqb label "180" then
    Mpl.mkText xtick ytick label 12 "center" "top" "Geodetic"
  else if String.eqb label "0" then
    Mpl.mkText xtick ytick label 12 "center" "bottom" "Geodetic"
  else
    Mpl.mkText xtick ytick label 12 "center" "center" "Geodetic".

(** [for xtick, ytick, label in zip(xticks, yticks, labels): ax.text(...)] *)
Definition directional_labels (ax : nat) : Nb.cell unit :=
  (labels <- Nb.lift labels ;;
   xticks <- Nb.lift xticks ;;
   let yticks := Np.full_like xticks (-5)%Z in
   Nb.for_each (zip3 xticks yticks labels)
     (fun '(xtick, ytick, label) _ =>
        Nb.exec (Mpl.text ax (label_text xtick ytick label)))
     tt)%cell.

(** *** The colorbar of the contour plot with temporal colors *)

Definition n : Z := 19.
Definition year_0 : Z := 1958.

(** [cbar.set_ticks(np.arange(year_0+0.5, year_n))] *)
Definition cbar_ticks (year_n : Z) : list Q :=
  Np.arange_float (inject_Z year_0 + (1#2)) (inject_Z year_n).

(** [cbar.set_ticklabels(np.arange(year_0, year_n))] *)
Definition cbar_ticklabels (year_n : Z) : result (list Z) :=
  Np.arange year_0 year_n 1.

(** [set_ticklabels] gives the k-th label to the k-th tick and raises
    ValueError when the two numbers differ. *)
Definition set_ticklabels (ticks : list Q) (ticklabels : list Z)
  : result (list (Q * Z)) :=
  if (List.length ticks =? List.length ticklabels)%nat
  then Ok (combine ticks ticklabels)
  else Raise ValueError.

(** The ticks of the colorbar with their labels. *)
Definition cbar_labelled_ticks (year_n : Z) : result (list (Q * Z)) :=
  (ticklabels <- cbar_ticklabels year_n ;;
   set_ticklabels (cbar_ticks year_n) ticklabels)%py.

End Spaghetti.

(** ** The expressions that drive the colormaps, as the cells write them

    The notebook hands three values to matplotlib as positions on a
    normalized color scale: [normalized_times] (to [plt.cm.autumn_r] and to
    the colorbar ticks), [bounds] (to [cmap(bounds)]) and [norm] (to
    [ScalarMappable]).  Their defining expressions are kept as syntax here,
    with an evaluator in which every library function is a parameter. *)

Module Source.

Import Py.
Local Open Scope string_scope.

#[warnings="-register-all"]
Inductive expr : Type :=
| Var (x : string)
| Int (z : Z)
| Index (e : expr) (i : Z)
| Sub (a b : expr)
| Div (a b : expr)
| ListComp (body : expr) (x : string) (src : expr)
| Call (api : string) (args : list expr).

#[warnings="-register-all"]
Inductive value : Type :=
| VInt (z : Z)
| VFloat (q : Q)
| VList (l : list value).

Definition env : Type := string -> option value.

Definition upd (rho : env) (x : string) (v : value) : env :=
  fun y => if String.eqb x y then Some v else rho y.

Section Eval.

(** What a library function returns on given arguments. *)
Variable lib : string -> list value -> result value.

Fixpoint eval (rho : env) (e : expr) : result value :=
  match e with
  | Var x => Nb.name (rho x) x
  | Int z => Ok (VInt z)
  | Index e' i =>
      (v <- eval rho e' ;;
       match v with
       | VList l => getitem l i
       | _ => Raise TypeError
       end)%py
  | Sub a b =>
      (va <- eval rho a ;;
       vb <- eval rho b ;;
       match va, vb with
       | VInt x, VInt y => Ok (VInt (x - y))
       | _, _ => Raise TypeError
       end)%py
  | Div a b =>
      (va <- eval rho a ;;
       vb <- eval rho b ;;
       match va, vb with
       | VInt x, VInt y =>
           if (y =? 0)%Z then Raise ZeroDivisionError
           else Ok (VFloat (inject_Z x / inject_Z y))
       | _, _ => Raise TypeError
       end)%py
  | ListComp body x src =>
      (v <- eval rho src ;;
       match v with
       | VList l =>
           (vs <- comprehension (fun w => eval (upd rho x w) body) l ;;
            Ok (VList vs))
       | _ => Raise TypeError
       end)%py
  | Call api args =>
      (vs <- (fix evals (es : list expr) : result (list value) :=
                match es with
                | [] => Ok []
                | e' :: es' =>
                    (v <- eval rho e' ;;
                     vs <- evals es' ;;
                     Ok (v :: vs))
                end) args ;;
       lib api vs)%py
  end.

End Eval.

(** Arithmetic that the notebook itself writes, anywhere in [e]. *)
Fixpoint own_arithmetic (e : expr) : bool :=
  match e with
  | Var _ | Int _ => false
  | Index e' _ => own_arithmetic e'
  | Sub _ _ | Div _ _ => true
  | ListComp body _ src => (own_arithmetic body || own_arithmetic src)%bool
  | Call _ args => existsb own_arithmetic args
  end.

(** The names the import cell binds to the modules of the libraries. *)
Definition imports : list string :=
  ["np"; "xr"; "datetime"; "mpl"; "plt"; "mticker"; "pl"; "ccrs";
   "cfeature"; "gv"; "gdf"; "tracks"; "warnings"].

(** The name a dotted name starts with: [np] for [np.linspace]. *)
Fixpoint module_of (api : string) : string :=
  match api with
  | EmptyString => EmptyString
  | String c s =>
      if Ascii.eqb c "."%char then EmptyString else String c (module_of s)
  end.

(** [api] names a function of one of the imported modules. *)
Definition library_api (api : string) : bool :=
  existsb (String.eqb (module_of api)) imports.

(** [e] is one call of a library function, over arguments in which the
    notebook does no arithmetic of its own. *)
Definition delegated (e : expr) : bool :=
  match e with
  | Call api args =>
      (library_api api && negb (existsb own_arithmetic args))%bool
  | _ => false
  end.

(** [[(i - times[0]) / (times[-1] - times[0]) for i in times]] *)
Definition normalized_times_expr : expr :=
  ListComp
    (Div (Sub (Var "i") (Index (Var "times") 0))
         (Sub (Index (Var "times") (-1)) (Index (Var "times") 0)))
    "i" (Var "times").

(** [np.linspace(0, 1, n)] *)
Definition bounds_expr : expr :=
  Call "np.linspace" [Int 0; Int 1; Var "n"].

(** [plt.Normalize(vmin=year_0, vmax=year_n)] *)
Definition norm_expr : expr :=
  Call "plt.Normalize" [Var "year_0"; Var "year_n"].

Definition colormap_inputs : list expr :=
  [normalized_times_expr; bounds_expr; norm_expr].

(** The variables [normalized_times_expr] reads. *)
Definition times_env (times : list Z) : env :=
  upd (fun _ => None) "times" (VList (map VInt times)).

(** A library in which no call succeeds. *)
Definition no_library (api : string) (_ : list value) : result value :=
  Raise (NameError api).

Definition floats (r : result (list Q)) : result value :=
  (qs <- r ;; Ok (VList (map VFloat qs)))%py.

(** [rho] binds the names [xs] to the values [vs], in order. *)
Fixpoint binds (rho : env) (xs : list string) (vs : list value) : Prop :=
  match xs, vs with
  | [], [] => True
  | x :: xs', v :: vs' => rho x = Some v /\ binds rho xs' vs'
  | _, _ => False
  end.

End Source.

(** ** The colorbar of the temporal colormapping *)

Module Colorbar.

Import Py.
Local Open Scope string_scope.

(** [range(start, stop, step)]; a zero step raises ValueError. *)
Definition range_step (start stop step : Z) : result (list Z) :=
  if (step =? 0)%Z then Raise ValueError
  else
    let count := Z.to_nat (- ((start - stop) / step))%Z in
    Ok (map (fun k => start + Z.of_nat k * step)%Z (seq 0 count)).

(** [tick_indices = range(0, len(times), 4)] *)
Definition tick_indices (times : list Spaghetti.datetime) : result (list Z) :=
  range_step 0 (len times) 4.

(** What [set_ticklabels] does with the ticks [set_ticks] has fixed: the
    k-th label goes to the k-th tick, and two different numbers raise
    ValueError. *)
Definition pair_ticklabels {L : Type} (ticks : list Q) (ticklabels : list L)
  : result (list (Q * L)) :=
  if (List.length ticks =? List.length ticklabels)%nat
  then Ok (combine ticks ticklabels)
  else Raise ValueError.

Section Ticks.

(** [t.strftime('%d')] belongs to the datetime library. *)
Variable strftime_d : Spaghetti.datetime -> string.

(** [cbar.set_ticks([normalized_times[i] for i in tick_indices])]
    [cbar.set_ticklabels([times[i].strftime('%d') for i in tick_indices])] *)
Definition temporal_colorbar (times : list Spaghetti.datetime)
    (normalized_times : list Q) : result (list (Q * string)) :=
  (tick_indices <- tick_indices times ;;
   ticks <- comprehension (fun i => getitem normalized_times i) tick_indices ;;
   ticklabels <- comprehension
                   (fun i => (t <- getitem times i ;; Ok (strftime_d t)))
                   tick_indices ;;
   pair_ticklabels ticks ticklabels)%py.

End Ticks.

End Colorbar.

(** ** The contour cells *)

Module Contour.

Import Py.
Local Open Scope string_scope.

(** [np.linspace(start, stop, num)]: [num] samples, the last one [stop]
    itself; a negative [num] raises ValueError. *)
Definition linspace (start stop : Q) (num : Z) : result (list Q) :=
  if (num <? 0)%Z then Raise ValueError
  else if (num =? 1)%Z then Ok [start]
  else
    let step := (stop - start) / inject_Z (num - 1) in
    Ok (map (fun k => if (k =? num - 1)%Z then stop
                      else start + inject_Z k * step)
            (range 0 num)).

(** numpy's [int] is the 64-bit signed integer. *)
Definition int64_min : Z := - 2 ^ 63.
Definition int64_max : Z := 2 ^ 63 - 1.

(** [a.astype(int)] of a float: the fraction is dropped; a value that
    does not fit in 64 bits comes out as [-2**63], the result of the
    conversion on x86-64. *)
Definition astype_int (q : Q) : Z :=
  let z := if Qlt_le_dec q 0 then Qceiling q else Qfloor q in
  if ((int64_min <=? z) && (z <=? int64_max))%Z%bool then z else int64_min.

(** The sum of two 64-bit integers wraps around. *)
Definition int64_add (a b : Z) : Z :=
  ((a + b + 2 ^ 63) mod 2 ^ 64 - 2 ^ 63)%Z.

(** [year_n = (ds.time.isel(time=12*n) / 12).astype(int) + year_0], the
    time coordinate being the list of its values. *)
Definition year_n (time : list Q) : result Z :=
  (t <- getitem time (12 * Spaghetti.n) ;;
   Ok (int64_add (astype_int (t / 12)) Spaghetti.year_0))%py.

(** [n = 19], [bounds = np.linspace(0, 1, n)] and [cmap(bounds)[x]] for
    the [n]-color colormap [plt.get_cmap('winter_r', n)]: the entry of the
    colormap that contour [x] is drawn in. *)
Definition contour_entry (x : Z) : result Mpl.lut_entry :=
  (bounds <- linspace 0 1 Spaghetti.n ;;
   getitem (map (Mpl.call_float Spaghetti.n) bounds) x)%py.

(** How a contour is colored: by a color name or by a colormap entry. *)
Inductive paint : Type :=
| ByName (name : string)
| ByEntry (e : Mpl.lut_entry).

(** [for x in l: ...contour(...)]: the contours drawn so far, and how the
    loop ended.  An exception keeps what was drawn before it. *)
Fixpoint draw_each {A B : Type} (body : A -> result B) (l : list A)
    (drawn : list B) : list B * result unit :=
  match l with
  | [] => (drawn, Ok tt)
  | x :: l' =>
      match body x with
      | Ok b => draw_each body l' (drawn ++ [b])%list
      | Raise e => (drawn, Raise e)
      end
  end.

(** [colorlist] of the cell with hand-picked colors. *)
Definition colorlist : list string :=
  ["crimson"; "green"; "blue"; "yellow"; "cyan"; "hotpink"; "crimson";
   "skyblue"; "navy"; "lightyellow"; "mediumorchid"; "orange"; "slateblue";
   "palegreen"; "magenta"; "springgreen"; "pink"; "forestgreen"; "violet"].

Section Cells.

(** The geopotential height at one time step, and the geocat-viz function
    that closes it in longitude. *)
Variable Field : Type.
Variable xr_add_cyclic_longitudes : Field -> Field.

(** One [slon.plot.contour(levels=[5500], ...)] call. *)
Record ContourSet : Type := mkContourSet {
  data : Field;
  colors : paint;
  linewidths : Q
}.

(** [p = ds.HGT.isel(time=t)] and the contour of it; [HGT] is the list of
    the fields along the time axis. *)
Definition contour_at (HGT : list Field) (t : Z) (c : paint) (lw : Q)
  : result ContourSet :=
  (p <- getitem HGT t ;;
   Ok (mkContourSet (xr_add_cyclic_longitudes p) c lw))%py.

(** The loop of "Initial Spaghetti Plot": [for x in range(n)] at time step
    [12*x]. *)
Definition blue_contours (HGT : list Field) : list ContourSet * result unit :=
  draw_each (fun x => contour_at HGT (12 * x) (ByName "blue") (1#2))
    (range 0 Spaghetti.n) [].

(** The loop of "Adding Directional Labels": [for x in range(19)] at time
    step [12 * x + 1]. *)
Definition blue_contours_shifted (HGT : list Field)
  : list ContourSet * result unit :=
  draw_each (fun x => contour_at HGT (12 * x + 1) (ByName "blue") (1#2))
    (range 0 19) [].

(** The loop of "Temporal Colorbar Manipulation": contour [x] in the color
    [cmap(bounds)[x]]. *)
Definition temporal_contours (HGT : list Field)
  : list ContourSet * result unit :=
  match linspace 0 1 Spaghetti.n with
  | Raise e => ([], Raise e)
  | Ok bounds =>
      draw_each
        (fun x =>
           (p <- getitem HGT (12 * x) ;;
            let slon := xr_add_cyclic_longitudes p in
            c <- getitem (map (Mpl.call_float Spaghetti.n) bounds) x ;;
            Ok (mkContourSet slon (ByEntry c) (1#2)))%py)
        (range 0 Spaghetti.n) []
  end.

(** The cell "Hand-Picked Colors": time step 0 in a thick black line, then
    [for x in range(18)] at time step [12 * x + 1] in [colorlist[x]]. *)
Definition handpicked_contours (HGT : list Field)
  : list ContourSet * result unit :=
  match contour_at HGT 0 (ByName "black") (3#2) with
  | Raise e => ([], Raise e)
  | Ok first =>
      draw_each
        (fun x =>
           (p <- getitem HGT (12 * x + 1) ;;
            let slon := xr_add_cyclic_longitudes p in
            c <- getitem colorlist x ;;
            Ok (mkContourSet slon (ByName c) (1#2)))%py)
        (range 0 18) [first]
  end.

End Cells.

End Contour.

Open Scope string_scope.
Open Scope list_scope.

(** ** Vocabulary of the statements *)

(** The figure in which [a] is the Axes created last and is current. *)
Definition last_axes (l : list Mpl.Axes) (a : Mpl.Axes) : Mpl.pyplot :=
  Mpl.mkPyplot (l ++ [a])%list (Some (List.length l)).

(** The Axes as [setup_axes] leaves it. *)
Definition hurricane_axes : Mpl.Axes :=
  Mpl.mkAxes "PlateCarree" [] [] ["LAND"; "Gridliner"]%string None.

Definition add_lines (lns : list Mpl.Line2D) (a : Mpl.Axes) : Mpl.Axes :=
  Mpl.mkAxes (Mpl.projection a) (Mpl.lines a ++ lns)%list (Mpl.texts a)
    (Mpl.artists a) (Mpl.title a).

(** A track as tropycal returns it: as many longitudes as latitudes. *)
Definition track_ok (t : Spaghetti.Track) : Prop :=
  List.length (Spaghetti.lon t) = List.length (Spaghetti.lat t).

(** The line one forecast initialization is drawn as. *)
Definition forecast_line (c : Mpl.color) (t : Spaghetti.Track) : Mpl.Line2D :=
  Mpl.mkLine2D (Spaghetti.lon t) (Spaghetti.lat t) c (1#2) None.

(** The line of the storm's true path. *)
Definition true_line (c : string) (lbl : option string) (t : Spaghetti.Track)
  : Mpl.Line2D :=
  Mpl.mkLine2D (Spaghetti.lon t) (Spaghetti.lat t) (Mpl.Named c) 1 lbl.

(** The value of [forecast_path] after a loop over [entries]. *)
Definition last_forecast_path (acc : option (list Mpl.Line2D))
    (entries : list (string * Spaghetti.Track)) : option (list Mpl.Line2D) :=
  match rev entries with
  | [] => acc
  | (_, t) :: _ => Some [forecast_line Spaghetti.cornflowerblue t]
  end.


(** A run of the hurricane cells on two initializations six hours apart. *)
Definition example_AP01 : Py.dict Spaghetti.Track :=
  [("2012102200", Spaghetti.mkTrack [-77; -(155#2)] [14; 15]);
   ("2012102206", Spaghetti.mkTrack [-(155#2); -78] [15; 17])]%string.

Definition example_forecasts : Py.dict (Py.dict Spaghetti.Track) :=
  [("AP01", example_AP01)]%string.

Definition example_sandy : Spaghetti.Track :=
  Spaghetti.mkTrack [-77; -(773#10)] [(143#10); (137#10)].

Definition example_strptime (s : string) : Py.result Spaghetti.datetime :=
  if String.eqb s "2012102200" then Py.Ok 0%Z
  else if String.eqb s "2012102206" then Py.Ok 21600000000%Z
  else Py.Raise Py.ValueError.

Definition example_autumn_r (x : Q) : Mpl.color :=
  Mpl.RGBA 1 (1 - x) 0 1.

(** A library that holds [np.linspace] only. *)
Definition numpy_only (api : string) (args : list Source.value)
  : Py.result Source.value :=
  match args with
  | [Source.VInt a; Source.VInt b; Source.VInt num] =>
      if String.eqb api "np.linspace"
      then Source.floats (Contour.linspace (inject_Z a) (inject_Z b) num)
      else Py.Raise (Py.NameError api)
  | _ => Py.Raise (Py.NameError api)
  end.

(** The names of the contour cell, as the cell binds them. *)
Definition contour_env (year_n : Z) : Source.env :=
  Source.upd
    (Source.upd
       (Source.upd (fun _ => None) "n" (Source.VInt Spaghetti.n))
       "year_0" (Source.VInt Spaghetti.year_0))
    "year_n" (Source.VInt year_n).

Definition empty_figure : Mpl.pyplot := Mpl.mkPyplot [] None.

(** The position of the time [i] between [t0] and [tl]. *)
Definition normalize (t0 tl i : Z) : Q :=
  inject_Z (i - t0) / inject_Z (tl - t0).

Definition nondecreasing (l : list Z) : Prop :=
  forall a b : nat,
    (a <= b < List.length l)%nat -> (nth a l 0 <= nth b l 0)%Z.

Definition result_map {A B : Type} (f : A -> B) (r : Py.result A)
  : Py.result B :=
  match r with
  | Py.Ok a => Py.Ok (f a)
  | Py.Raise e => Py.Raise e
  end.

(** The labels in the order the cell builds them. *)
Definition twelve_labels : list string :=
  ["0"; "30E"; "60E"; "90E"; "120E"; "150E"; "180";
   "30W"; "60W"; "90W"; "120W"; "150W"].

Definition has_valign (v : string) (t : Mpl.Text) : bool :=
  String.eqb (Mpl.verticalalignment t) v.

(** The longitudes [np.arange(0, 360, 30)]. *)
Definition twelve_xticks : list Z :=
  map (fun k => (30 * Z.of_nat k)%Z) (seq 0 12).

(** The texts the label loop draws, at latitude -5. *)
Definition twelve_texts : list Mpl.Text :=
  map (fun '(x, l) => Spaghetti.label_text x (-5) l)
      (combine twelve_xticks twelve_labels).

(** The positions of the 19 colors. *)
Definition nineteen : list nat := seq 0 19.

(** A cell outcome that is not an IndexError and whose value, when there
    is one, satisfies [Q]. *)
Definition safe {A : Type} (m : Nb.cell A) (Q : A -> Prop) : Prop :=
  forall st : Mpl.pyplot,
    match snd (m st) with
    | Py.Ok a => Q a
    | Py.Raise e => e <> Py.IndexError
    end.

(** What [forecast_path] holds once a loop body has assigned it. *)
Definition one_line (v : option (list Mpl.Line2D)) : Prop :=
  forall fp, v = Some fp -> List.length fp = 1%nat.

(** The elements of [l] at the positions [idxs] that exist. *)
Definition pick {A : Type} (l : list A) (idxs : list nat) : list A :=
  flat_map (fun i => match nth_error l i with
                     | Some a => [a]
                     | None => []
                     end) idxs.

(** The number of colorbar ticks for [k] initializations: every fourth. *)
Definition tick_count (k : nat) : nat := ((k + 3) / 4)%nat.

(** The positions 0, 4, 8, ... below [k]. *)
Definition fourths (k : nat) : list nat :=
  map (fun j => (4 * j)%nat) (seq 0 (tick_count k)).

(** The key of ensemble member number [i + 1]. *)
Definition member_key (i : nat) : string := nth i Spaghetti.GFS_keys "".

(** [forecasts[GFS_keys[i]][time]]: the track of that member at the chosen
    initialization. *)
Definition member_track (forecasts : Py.dict (Py.dict Spaghetti.Track))
    (i : nat) : Py.result Spaghetti.Track :=
  Py.bind (Py.lookup forecasts (member_key i))
    (fun ap => Py.lookup ap Spaghetti.time).

(** The value of [forecast_path] after lines for [trks] were drawn. *)
Definition last_drawn (acc : option (list Mpl.Line2D))
    (trks : list Spaghetti.Track) : option (list Mpl.Line2D) :=
  match rev trks with
  | [] => acc
  | t :: _ => Some [forecast_line Spaghetti.cornflowerblue t]
  end.

(** Forecasts in which every member has the one initialization; and the
    same with the members from AP04 on left out. *)
Definition example_members : Py.dict (Py.dict Spaghetti.Track) :=
  map (fun key => (key, [(Spaghetti.time, example_sandy)]))
      Spaghetti.GFS_keys.

Definition example_three_members : Py.dict (Py.dict Spaghetti.Track) :=
  firstn 3 example_members.

(** A time coordinate that counts the months from January 1958 to
    December 1997. *)
Definition example_time : list Q :=
  map (fun k => inject_Z (Z.of_nat k)) (seq 0 480).

(** The contours a loop draws from the time steps [idx x] that exist, [x]
    running through [xs]. *)
Definition drawn_at {F B : Type} (HGT : list F) (mk : nat -> F -> B)
    (idx : nat -> nat) (xs : list nat) : list B :=
  flat_map (fun x => match nth_error HGT (idx x) with
                     | Some p => [mk x p]
                     | None => []
                     end) xs.

(** How a loop over the time steps [idx x] ends. *)
Definition isel_outcome {F : Type} (HGT : list F) (idx : nat -> nat)
    (xs : list nat) : Py.result unit :=
  if forallb (fun x => (idx x <? List.length HGT)%nat) xs
  then Py.Ok tt
  else Py.Raise Py.IndexError.

(** The contour sets the four contour loops draw from time step [p] in
    iteration [x]. *)
Definition blue_set {F : Type} (cyc : F -> F) (_ : nat) (p : F)
  : Contour.ContourSet F :=
  Contour.mkContourSet (cyc p) (Contour.ByName "blue") (1#2).

Definition entry_set {F : Type} (cyc : F -> F) (x : nat) (p : F)
  : Contour.ContourSet F :=
  Contour.mkContourSet (cyc p)
    (Contour.ByEntry (Mpl.Entry (Z.of_nat x))) (1#2).

Definition handpicked_set {F : Type} (cyc : F -> F) (x : nat) (p : F)
  : Contour.ContourSet F :=
  Contour.mkContourSet (cyc p)
    (Contour.ByName (nth x Contour.colorlist "")) (1#2).

Definition black_set {F : Type} (cyc : F -> F) (p : F)
  : Contour.ContourSet F :=
  Contour.mkContourSet (cyc p) (Contour.ByName "black") (3#2).

(** The label the cell draws at the tick of longitude [x]. *)
Definition drawn_label (x : Z) : string :=
  if (x =? 0)%Z then "0"
  else if (x <? 180)%Z then (Py.str x ++ "E")%string
  else if (x =? 180)%Z then "180"
  else (Py.str (x - 180) ++ "W")%string.

(** The name of the meridian [x] degrees east of Greenwich, 0 <= x < 360:
    beyond 180 it lies [360 - x] degrees west. *)
Definition meridian_name (x : Z) : string :=
  if (x =? 0)%Z then "0"
  else if (x <? 180)%Z then (Py.str x ++ "E")%string
  else if (x =? 180)%Z then "180"
  else (Py.str (360 - x) ++ "W")%string.

(** * Properties *)

(** ** Lists, dicts and the pyplot state *)

Section ListFacts.

Context {A : Type}.

Lemma alter_length (f : A -> A) (i : nat) (l : list A) :
  List.length (Mpl.alter f i l) = List.length l.
Proof.
  revert i; induction l as [|x l IH]; intros [|i]; simpl; auto.
Qed.

Lemma nth_error_alter_eq (f : A -> A) (i : nat) (l : list A) :
  nth_error (Mpl.alter f i l) i = option_map f (nth_error l i).
Proof.
  revert i; induction l as [|x l IH]; intros [|i]; simpl; auto.
Qed.

Lemma nth_error_alter_neq (f : A -> A) (i j : nat) (l : list A) :
  i <> j -> nth_error (Mpl.alter f i l) j = nth_error l j.
Proof.
  revert i j; induction l as [|x l IH]; intros [|i] [|j] Hij; simpl;
    try reflexivity; try congruence.
  apply IH; congruence.
Qed.

Lemma alter_app_last (f : A -> A) (l : list A) (a : A) :
  Mpl.alter f (List.length l) (l ++ [a]) = l ++ [f a].
Proof.
  induction l as [|x l IH]; simpl; [reflexivity | now rewrite IH].
Qed.

End ListFacts.

Lemma in_firstn {A : Type} (x : A) (n : nat) (l : list A) :
  In x (firstn n l) -> In x l.
Proof.
  intros H; rewrite <- (firstn_skipn n l); apply in_or_app; now left.
Qed.

Lemma getitem_in_bounds {A : Type} (l : list A) (i : Z) :
  (0 <= i < Py.len l)%Z ->
  exists a, Py.getitem l i = Py.Ok a /\ nth_error l (Z.to_nat i) = Some a.
Proof.
  unfold Py.getitem, Py.len; intros Hi.
  destruct (Z.ltb_spec i 0) as [Hn|_]; [lia|].
  destruct (Z.ltb_spec i 0) as [Hn|_]; [lia|].
  destruct (nth_error l (Z.to_nat i)) as [a|] eqn:E.
  - now exists a.
  - apply nth_error_None in E; lia.
Qed.

(** ** Which exceptions a cell can raise *)

Lemma safe_ret {A : Type} (a : A) (Q : A -> Prop) :
  Q a -> safe (Nb.ret a) Q.
Proof.
  intros H st; exact H.
Qed.

Lemma safe_bind {A B : Type} (m : Nb.cell A) (k : A -> Nb.cell B)
    (Q : A -> Prop) (R : B -> Prop) :
  safe m Q -> (forall a, Q a -> safe (k a) R) -> safe (Nb.bind m k) R.
Proof.
  intros Hm Hk st; unfold Nb.bind.
  specialize (Hm st); destruct (m st) as [st' [a|e]]; cbn in *.
  - now apply Hk.
  - exact Hm.
Qed.

Lemma safe_lift {A : Type} (r : Py.result A) (Q : A -> Prop) :
  match r with Py.Ok a => Q a | Py.Raise e => e <> Py.IndexError end ->
  safe (Nb.lift r) Q.
Proof.
  intros H st; exact H.
Qed.

Lemma safe_call {A : Type} (f : Mpl.pyplot -> Mpl.pyplot * A) (Q : A -> Prop) :
  (forall st, Q (snd (f st))) -> safe (Nb.call f) Q.
Proof.
  intros H st; unfold Nb.call.
  specialize (H st); destruct (f st) as [st' a]; exact H.
Qed.

Lemma safe_exec (f : Mpl.pyplot -> Mpl.pyplot) :
  safe (Nb.exec f) (fun _ => True).
Proof.
  intros st; exact I.
Qed.

Lemma safe_for_each {A Acc : Type} (l : list A) (body : A -> Acc -> Nb.cell Acc)
    (Inv : Acc -> Prop) :
  (forall x acc, In x l -> Inv acc -> safe (body x acc) Inv) ->
  forall acc, Inv acc -> safe (Nb.for_each l body acc) Inv.
Proof.
  induction l as [|x l IH]; intros Hbody acc Hacc; cbn [Nb.for_each].
  - now apply safe_ret.
  - apply safe_bind with (Q := Inv).
    + apply Hbody; [now left|assumption].
    + intros acc' Hacc'; apply IH; [|assumption].
      intros y acc'' Hy; apply Hbody; now right.
Qed.

Lemma lookup_raises_KeyError {V : Type} (d : Py.dict V) (k : string) :
  match Py.lookup d k with
  | Py.Ok _ => True
  | Py.Raise e => e <> Py.IndexError
  end.
Proof.
  induction d as [|[k' v] d IH]; cbn; [discriminate|].
  destruct (String.eqb k' k); [exact I|exact IH].
Qed.

Lemma safe_plot (x y : list Q) (c : Mpl.color) (lw : Q)
    (lbl : option string) :
  safe (Mpl.plot x y c lw lbl) (fun fp => List.length fp = 1%nat).
Proof.
  intros st; unfold Mpl.plot; destruct (Mpl.gca st) as [st1 ax].
  destruct (List.length x =? List.length y)%nat; cbn;
    [reflexivity|discriminate].
Qed.

(** ** The ensemble member keys *)

Lemma GFS_keys_in_bounds (i : Z) :
  In i (Py.range 0 20) -> exists key, Py.getitem Spaghetti.GFS_keys i = Py.Ok key.
Proof.
  intros Hi; unfold Py.range in Hi; apply in_map_iff in Hi.
  destruct Hi as [k [<- Hk]]; apply in_seq in Hk.
  destruct (@getitem_in_bounds _ Spaghetti.GFS_keys (0 + Z.of_nat k)) as [key [E _]].
  - change (Py.len Spaghetti.GFS_keys) with 20%Z; simpl in Hk; lia.
  - now exists key.
Qed.

Lemma plot_member_safe (forecasts : Py.dict (Py.dict Spaghetti.Track)) (i : Z)
    (acc : option (list Mpl.Line2D)) :
  In i (Py.range 0 20) ->
  safe (Spaghetti.plot_member forecasts i acc) one_line.
Proof.
  intros Hi; destruct (GFS_keys_in_bounds Hi) as [key E].
  unfold Spaghetti.plot_member; rewrite E.
  apply safe_bind with (Q := fun _ => True); [now apply safe_lift|intros k _].
  apply safe_bind with (Q := fun _ => True);
    [apply safe_lift, lookup_raises_KeyError|intros ap _].
  apply safe_bind with (Q := fun _ => True);
    [apply safe_lift, lookup_raises_KeyError|intros a _].
  apply safe_bind with (Q := fun _ => True);
    [apply safe_lift, lookup_raises_KeyError|intros b _].
  apply safe_bind with (Q := fun fp => List.length fp = 1%nat).
  - apply safe_plot.
  - intros fp Hfp; apply safe_ret; intros fp' [= <-]; exact Hfp.
Qed.

(** The cell that plots all ensemble members raises no IndexError,
    whatever tropycal returned. *)
Lemma spaghetti_members_safe (forecasts : Py.dict (Py.dict Spaghetti.Track))
    (sandy_ds : Spaghetti.Track) :
  safe (Spaghetti.spaghetti_members forecasts sandy_ds) (fun _ => True).
Proof.
  unfold Spaghetti.spaghetti_members.
  apply safe_bind with (Q := fun _ => True); [|intros ax _].
  { unfold Spaghetti.setup_axes.
    apply safe_bind with (Q := fun _ => True);
      [apply safe_call; intros; exact I|intros ax' _].
    apply safe_bind with (Q := fun _ => True); [apply safe_exec|intros _ _].
    apply safe_bind with (Q := fun _ => True); [apply safe_exec|intros _ _].
    now apply safe_ret. }
  apply safe_bind with (Q := one_line); [|intros forecast_path Hpath].
  { apply safe_for_each; [|intros fp; discriminate].
    intros i acc Hi _; now apply plot_member_safe. }
  apply safe_bind with (Q := fun tp => List.length tp = 1%nat);
    [|intros true_path Htp].
  { apply safe_plot. }
  apply safe_bind with (Q := fun _ => True); [|intros t0 _].
  { apply safe_lift; destruct true_path as [|ln [|]]; try discriminate; exact I. }
  apply safe_bind with (Q := fun fp => List.length fp = 1%nat); [|intros fp Hfp].
  { apply safe_lift; destruct forecast_path as [fp|]; cbn.
    - now apply Hpath.
    - discriminate. }
  apply safe_bind with (Q := fun _ => True); [|intros f0 _].
  { apply safe_lift; destruct fp as [|ln [|]]; try discriminate; exact I. }
  apply safe_bind with (Q := fun _ => True); [apply safe_exec|intros _ _].
  apply safe_exec.
Qed.

(** C3: [GFS_keys] is the list of the 20 strings 'AP01' ... 'AP20' in
    increasing order, each index written with two digits, and the loop
    [for i in range(20)] reads [GFS_keys[i]] at the positions 0 .. 19 only,
    all of them in bounds: the 20 reads return the 20 keys in order, and the
    cell raises no IndexError on any forecasts. *)
Theorem GFS_keys_AP01_to_AP20 :
  Spaghetti.GFS_keys =
    ["AP01"; "AP02"; "AP03"; "AP04"; "AP05"; "AP06"; "AP07"; "AP08"; "AP09";
     "AP10"; "AP11"; "AP12"; "AP13"; "AP14"; "AP15"; "AP16"; "AP17"; "AP18";
     "AP19"; "AP20"]
  /\ List.length Spaghetti.GFS_keys = 20%nat
  /\ Py.range 0 20 = map Z.of_nat (seq 0 20)
  /\ Forall (fun i => (0 <= i < Py.len Spaghetti.GFS_keys)%Z) (Py.range 0 20)
  /\ map (Py.getitem Spaghetti.GFS_keys) (Py.range 0 20)
     = map Py.Ok Spaghetti.GFS_keys
  /\ (forall (forecasts : Py.dict (Py.dict Spaghetti.Track))
             (sandy_ds : Spaghetti.Track) (st : Mpl.pyplot),
         snd (Spaghetti.spaghetti_members forecasts sandy_ds st)
         <> Py.Raise Py.IndexError).
Proof.
  split; [reflexivity|].
  split; [reflexivity|].
  split; [reflexivity|].
  split; [|split; [reflexivity|]].
  - apply Forall_forall; intros i Hi.
    unfold Py.range in Hi; apply in_map_iff in Hi.
    destruct Hi as [k [<- Hk]]; apply in_seq in Hk.
    change (Py.len Spaghetti.GFS_keys) with 20%Z; simpl in Hk; lia.
  - intros forecasts sandy_ds st.
    pose proof (spaghetti_members_safe forecasts sandy_ds st) as H.
    destruct (snd (Spaghetti.spaghetti_members forecasts sandy_ds st))
      as [u|e]; [discriminate|congruence].
Qed.

(** ** The directional labels *)

Lemma directional_labels_run (ax : nat) (st : Mpl.pyplot) (a : Mpl.Axes) :
  nth_error (Mpl.all_axes st) ax = Some a ->
  exists st',
    Spaghetti.directional_labels ax st = (st', Py.Ok tt)
    /\ Mpl.current st' = Mpl.current st
    /\ List.length (Mpl.all_axes st') = List.length (Mpl.all_axes st)
    /\ nth_error (Mpl.all_axes st') ax
       = Some (Mpl.mkAxes (Mpl.projection a) (Mpl.lines a)
                 (Mpl.texts a ++ twelve_texts) (Mpl.artists a) (Mpl.title a)).
Proof.
  intros Ha.
  eexists; split.
  { cbv -[Mpl.alter Mpl.all_axes Mpl.current Datatypes.app]; reflexivity. }
  cbn [Mpl.current Mpl.all_axes].
  split; [reflexivity|].
  split; [now rewrite !alter_length|].
  rewrite !nth_error_alter_eq, Ha.
  destruct a as [p ls ts ar ti].
  cbv -[Datatypes.app]; rewrite <- !app_assoc; reflexivity.
Qed.


(** C9: [labels = etick + wtick] is the list of the 12 strings
    '0', '30E', ..., '150E', '180', '30W', ..., '150W'; [xticks] has the
    same length 12, so [zip] pairs each of the 12 longitudes with one label
    and drops none; on any Axes the loop adds exactly these 12 texts, of
    which exactly one ('180') has verticalalignment 'top' and exactly one
    ('0') has verticalalignment 'bottom'. *)
Theorem directional_labels_twelve :
  Spaghetti.labels = Py.Ok twelve_labels
  /\ Spaghetti.xticks = Py.Ok twelve_xticks
  /\ List.length twelve_labels = 12%nat
  /\ List.length twelve_xticks = List.length twelve_labels
  /\ map (fun '(x, _, l) => (x, l))
         (Py.zip3 twelve_xticks (Np.full_like twelve_xticks (-5)%Z) twelve_labels)
     = combine twelve_xticks twelve_labels
  /\ map snd (combine twelve_xticks twelve_labels) = twelve_labels
  /\ map fst (combine twelve_xticks twelve_labels) = twelve_xticks
  /\ (forall ax st a,
        nth_error (Mpl.all_axes st) ax = Some a ->
        exists st',
          Spaghetti.directional_labels ax st = (st', Py.Ok tt)
          /\ nth_error (Mpl.all_axes st') ax
             = Some (Mpl.mkAxes (Mpl.projection a) (Mpl.lines a)
                       (Mpl.texts a ++ twelve_texts) (Mpl.artists a)
                       (Mpl.title a)))
  /\ map Mpl.text_s twelve_texts = twelve_labels
  /\ filter (has_valign "top") twelve_texts
     = [Mpl.mkText 180 (-5) "180" 12 "center" "top" "Geodetic"]
  /\ filter (has_valign "bottom") twelve_texts
     = [Mpl.mkText 0 (-5) "0" 12 "center" "bottom" "Geodetic"].
Proof.
  repeat match goal with |- _ /\ _ => split end; try reflexivity.
  intros ax st a Ha.
  destruct (directional_labels_run ax st Ha) as [st' [Hrun [_ [_ Hax]]]].
  exists st'; split; assumption.
Qed.

(** The label loop on a fresh polar-stereographic Axes. *)
Lemma directional_labels_twelve_witness :
  exists st',
    Spaghetti.directional_labels 0
      (fst (Mpl.axes "NorthPolarStereo" (Mpl.mkPyplot [] None)))
    = (st', Py.Ok tt)
    /\ nth_error (Mpl.all_axes st') 0
       = Some (Mpl.mkAxes "NorthPolarStereo" [] twelve_texts [] None).
Proof.
  destruct directional_labels_twelve as [_ [_ [_ [_ [_ [_ [_ [H _]]]]]]]].
  apply (H 0%nat (fst (Mpl.axes "NorthPolarStereo" (Mpl.mkPyplot [] None)))
           (Mpl.new_axes "NorthPolarStereo")).
  reflexivity.
Defined.

(** ** One Axes, many lines *)

Lemma setup_axes_run (st : Mpl.pyplot) :
  Spaghetti.setup_axes st
  = (last_axes (Mpl.all_axes st) hurricane_axes,
     Py.Ok (List.length (Mpl.all_axes st))).
Proof.
  unfold Spaghetti.setup_axes, Nb.bind, Nb.call, Nb.exec, Nb.ret, Mpl.axes,
    Mpl.add_feature, Mpl.gridlines, Mpl.on_axes, last_axes; cbn.
  now rewrite !alter_app_last.
Qed.

Lemma plot_last (l : list Mpl.Axes) (a : Mpl.Axes) (x y : list Q)
    (c : Mpl.color) (lw : Q) (lbl : option string) :
  List.length x = List.length y ->
  Mpl.plot x y c lw lbl (last_axes l a)
  = (last_axes l (Mpl.add_line (Mpl.mkLine2D x y c lw lbl) a),
     Py.Ok [Mpl.mkLine2D x y c lw lbl]).
Proof.
  intros H; apply Nat.eqb_eq in H.
  unfold Mpl.plot, Mpl.gca, Mpl.on_axes, last_axes.
  cbn [Mpl.current Mpl.all_axes]; rewrite H.
  now rewrite alter_app_last.
Qed.

Lemma plot_mismatch (l : list Mpl.Axes) (a : Mpl.Axes) (x y : list Q)
    (c : Mpl.color) (lw : Q) (lbl : option string) :
  List.length x <> List.length y ->
  Mpl.plot x y c lw lbl (last_axes l a)
  = (last_axes l a, Py.Raise Py.ValueError).
Proof.
  intros H; apply Nat.eqb_neq in H.
  unfold Mpl.plot, Mpl.gca, last_axes.
  cbn [Mpl.current Mpl.all_axes]; now rewrite H.
Qed.

Lemma legend_last (l : list Mpl.Axes) (a : Mpl.Axes) :
  Mpl.legend (last_axes l a) = last_axes l (Mpl.add_artist "Legend" a).
Proof.
  unfold Mpl.legend, Mpl.gca, Mpl.on_axes, last_axes; cbn.
  now rewrite alter_app_last.
Qed.

Lemma title_last (l : list Mpl.Axes) (a : Mpl.Axes) (s : string) :
  Mpl.plt_title s (last_axes l a) = last_axes l (Mpl.set_title s a).
Proof.
  unfold Mpl.plt_title, Mpl.gca, Mpl.on_axes, last_axes; cbn.
  now rewrite alter_app_last.
Qed.

Lemma add_lines_nil (a : Mpl.Axes) : add_lines [] a = a.
Proof.
  destruct a; unfold add_lines; cbn; now rewrite app_nil_r.
Qed.

Lemma add_lines_cons (ln : Mpl.Line2D) (lns : list Mpl.Line2D) (a : Mpl.Axes) :
  add_lines lns (Mpl.add_line ln a) = add_lines (ln :: lns) a.
Proof.
  unfold add_lines, Mpl.add_line; cbn; now rewrite <- app_assoc.
Qed.

Lemma lookup_wf {V : Type} (d : Py.dict V) (k : string) (v : V) :
  Py.wf d -> In (k, v) d -> Py.lookup d k = Py.Ok v.
Proof.
  unfold Py.wf, Py.keys.
  induction d as [|[k' v'] d IH]; intros Hwf Hin; [contradiction|].
  cbn in *. inversion Hwf as [|? ? Hnotin Hwf']; subst.
  destruct Hin as [Heq|Hin].
  - inversion Heq; subst. now rewrite String.eqb_refl.
  - destruct (String.eqb_spec k' k) as [->|_].
    + exfalso; apply Hnotin. now apply (in_map fst) in Hin.
    + auto.
Qed.

Lemma last_forecast_path_cons acc k t entries :
  last_forecast_path (Some [forecast_line Spaghetti.cornflowerblue t]) entries
  = last_forecast_path acc ((k, t) :: entries).
Proof.
  unfold last_forecast_path; cbn.
  destruct (rev entries) as [|[k' t'] r]; reflexivity.
Qed.

(** The loop of the first spaghetti plot: no Axes is added, the current
    Axes gains one line per key, in key order. *)
Lemma forecast_loop (d : Py.dict Spaghetti.Track)
    (entries : list (string * Spaghetti.Track)) :
  (forall k t, In (k, t) entries -> Py.lookup d k = Py.Ok t) ->
  Forall track_ok (map snd entries) ->
  forall (l : list Mpl.Axes) (a : Mpl.Axes) acc,
    Nb.for_each (map fst entries) (Spaghetti.plot_forecast d) acc (last_axes l a)
    = (last_axes l
         (add_lines (map (forecast_line Spaghetti.cornflowerblue) (map snd entries)) a),
       Py.Ok (last_forecast_path acc entries)).
Proof.
  induction entries as [|[k t] entries IH]; intros Hd Hok l a acc; cbn.
  - now rewrite add_lines_nil.
  - cbn [map snd] in Hok; inversion Hok as [|? ? Ht Hok']; subst.
    unfold Nb.bind at 1, Spaghetti.plot_forecast, Nb.bind, Nb.lift, Nb.ret.
    rewrite (Hd k t (or_introl eq_refl)), (plot_last l a _ _ _ _ _ Ht).
    fold (forecast_line Spaghetti.cornflowerblue t).
    rewrite IH by (assumption || (intros; apply Hd; now right)).
    now rewrite add_lines_cons, (last_forecast_path_cons acc k).
Qed.

Lemma last_forecast_path_outcome (d : Py.dict Spaghetti.Track) :
  Py.bind (Nb.name (last_forecast_path None d) "forecast_path")
          (fun fp => Py.getitem fp 0)
  = match d with
    | [] => Py.Raise (Py.NameError "forecast_path")
    | _ :: _ => Py.Ok (forecast_line Spaghetti.cornflowerblue
                         (snd (last d ("", Spaghetti.mkTrack [] []))))
    end.
Proof.
  unfold last_forecast_path.
  destruct d as [|e d]; [reflexivity|].
  destruct (exists_last (l := e :: d)) as [d' [[k t] E]]; [discriminate|].
  rewrite E, rev_app_distr, last_last; reflexivity.
Qed.

Lemma Forall_firstn {A : Type} (P : A -> Prop) (n : nat) (l : list A) :
  Forall P l -> Forall P (firstn n l).
Proof.
  intros H; apply Forall_forall; intros x Hx.
  rewrite Forall_forall in H; apply H; now apply (in_firstn _ n).
Qed.

(** C4: in the cell "Spaghetti Plot of AP01 forecasts", for every dict
    [forecasts_AP01] with k keys whose tracks (and the storm's own) have as
    many longitudes as latitudes, the Axes created before the loop stays
    the only Axes the cell adds to the figure; after the first j iterations
    of the loop it holds exactly j lines (one [plt.plot] call per key, no new
    Axes), and after the cell it holds the k forecast lines in key order
    followed by the one true-path line, k + 1 lines in all.  (With k = 0 the
    legend call that follows then fails on the unbound [forecast_path]; the
    Axes holds its 0 + 1 lines all the same.) *)
Theorem spaghetti_AP01_one_axes
    (forecasts : Py.dict (Py.dict Spaghetti.Track))
    (forecasts_AP01 : Py.dict Spaghetti.Track)
    (sandy_ds : Spaghetti.Track) (st : Mpl.pyplot) :
  Py.lookup forecasts "AP01" = Py.Ok forecasts_AP01 ->
  Py.wf forecasts_AP01 ->
  Forall track_ok (map snd forecasts_AP01) ->
  track_ok sandy_ds ->
  (forall j : nat,
      (j <= List.length (Py.keys forecasts_AP01))%nat ->
      exists axj acc,
        Nb.for_each (firstn j (Py.keys forecasts_AP01))
          (Spaghetti.plot_forecast forecasts_AP01) None
          (fst (Spaghetti.setup_axes st))
        = (last_axes (Mpl.all_axes st) axj, Py.Ok acc)
        /\ List.length (Mpl.lines axj) = j)
  /\ exists ax outcome,
      Spaghetti.spaghetti_AP01 forecasts sandy_ds st
      = (last_axes (Mpl.all_axes st) ax, outcome)
      /\ Mpl.lines ax
         = map (forecast_line Spaghetti.cornflowerblue) (map snd forecasts_AP01)
           ++ [true_line "k" None sandy_ds]
      /\ List.length (Mpl.lines ax)
         = (List.length (Py.keys forecasts_AP01) + 1)%nat
      /\ outcome = match forecasts_AP01 with
                   | [] => Py.Raise (Py.NameError "forecast_path")
                   | _ :: _ => Py.Ok tt
                   end.
Proof.
  intros Hap Hwf Hok Hsandy; split.
  - intros j Hj.
    rewrite setup_axes_run; cbn [fst].
    unfold Py.keys; rewrite firstn_map.
    rewrite forecast_loop.
    + do 2 eexists; split; [reflexivity|].
      cbn. rewrite !length_map, length_firstn.
      unfold Py.keys in Hj; rewrite length_map in Hj; lia.
    + intros k t Hin; apply lookup_wf; [assumption|].
      now apply (in_firstn _ j).
    + rewrite <- firstn_map; now apply Forall_firstn.
  - unfold Spaghetti.spaghetti_AP01.
    unfold Nb.bind at 1; rewrite setup_axes_run.
    unfold Nb.bind at 1, Nb.lift at 1; rewrite Hap.
    unfold Nb.bind at 1; unfold Py.keys at 1.
    rewrite forecast_loop by (assumption || (intros; now apply lookup_wf)).
    unfold Nb.bind at 1; rewrite (plot_last _ _ _ _ _ _ _ Hsandy).
    unfold Nb.bind at 1, Nb.lift at 1; cbn [Py.getitem].
    change (Py.getitem [?x] 0) with (Py.Ok x).
    pose proof (last_forecast_path_outcome forecasts_AP01) as Hout.
    unfold Nb.bind, Nb.lift, Nb.exec.
    destruct forecasts_AP01 as [|e d].
    + cbn. do 2 eexists; split; [reflexivity|]. now repeat split.
    + unfold Py.bind in Hout.
      destruct (Nb.name (last_forecast_path None (e :: d)) "forecast_path")
        as [fp|ex]; [|discriminate].
      rewrite Hout, legend_last, title_last.
      do 2 eexists; split; [reflexivity|].
      cbn -[last]. split; [reflexivity|]. split; [|reflexivity].
      rewrite length_app, !length_map; cbn; unfold Py.keys; cbn;
        rewrite ?length_map; lia.
Qed.

(** The first spaghetti plot on two initializations: three lines on one
    Axes. *)
Lemma spaghetti_AP01_one_axes_witness :
  exists ax outcome,
    Spaghetti.spaghetti_AP01 example_forecasts example_sandy empty_figure
    = (last_axes [] ax, outcome)
    /\ Mpl.lines ax
       = map (forecast_line Spaghetti.cornflowerblue) (map snd example_AP01)
         ++ [true_line "k" None example_sandy]
    /\ List.length (Mpl.lines ax) = 3%nat
    /\ outcome = Py.Ok tt.
Proof.
  apply (proj2 (@spaghetti_AP01_one_axes example_forecasts example_AP01
                  example_sandy empty_figure eq_refl
                  ltac:(unfold Py.wf; cbn; repeat constructor; cbn;
                        intuition discriminate)
                  ltac:(repeat constructor)
                  eq_refl)).
Defined.

(** ** The counter of the temporal colormapping *)

Lemma comprehension_length {A B : Type} (f : A -> Py.result B) (l : list A)
    (r : list B) :
  Py.comprehension f l = Py.Ok r -> List.length r = List.length l.
Proof.
  revert r; induction l as [|x l IH]; intros r; cbn.
  - now intros [= <-].
  - destruct (f x) as [y|e]; cbn; [|discriminate].
    destruct (Py.comprehension f l) as [ys|e]; cbn; [|discriminate].
    intros [= <-]; cbn; now rewrite (IH ys).
Qed.







(** ** The normalization of the initialization times *)

Lemma getitem_map {A B : Type} (f : A -> B) (l : list A) (i : Z) :
  Py.getitem (map f l) i = result_map f (Py.getitem l i).
Proof.
  unfold Py.getitem, Py.len; rewrite length_map, nth_error_map.
  destruct (i <? 0)%Z;
    match goal with |- context [(?j <? 0)%Z] => destruct (j <? 0)%Z end;
    try reflexivity;
    match goal with |- context [nth_error l ?k] => destruct (nth_error l k) end;
    reflexivity.
Qed.

Lemma getitem_0_inv {A : Type} (l : list A) (x : A) :
  Py.getitem l 0 = Py.Ok x -> exists l', l = x :: l'.
Proof.
  destruct l as [|y l']; cbn; [discriminate|].
  intros [= ->]; now exists l'.
Qed.

Lemma nth_error_last {A : Type} (l : list A) (d : A) :
  l <> [] -> nth_error l (List.length l - 1) = Some (last l d).
Proof.
  induction l as [|x l IH]; [congruence|intros _].
  destruct l as [|y l]; [reflexivity|].
  cbn [List.length last] in *.
  replace (S (S (List.length l)) - 1)%nat with (S (S (List.length l) - 1)) by lia.
  cbn [nth_error]; apply IH; discriminate.
Qed.

Lemma getitem_last {A : Type} (l : list A) (d : A) :
  l <> [] -> Py.getitem l (-1) = Py.Ok (last l d).
Proof.
  intros Hl; unfold Py.getitem, Py.len; cbn [Z.ltb Z.compare].
  assert (0 < List.length l)%nat by (destruct l; [congruence|cbn; lia]).
  destruct (Z.ltb_spec (-1 + Z.of_nat (List.length l)) 0); [lia|].
  replace (Z.to_nat (-1 + Z.of_nat (List.length l)))
    with (List.length l - 1)%nat by lia.
  now rewrite (nth_error_last d Hl).
Qed.

Lemma comprehension_map {A B : Type} (f : A -> Py.result B) (g : A -> B)
    (l : list A) :
  (forall x, In x l -> f x = Py.Ok (g x)) ->
  Py.comprehension f l = Py.Ok (map g l).
Proof.
  induction l as [|x l IH]; intros H; cbn; [reflexivity|].
  rewrite (H x (or_introl eq_refl)); cbn.
  rewrite IH by (intros; apply H; now right); reflexivity.
Qed.

Lemma normalized_times_ok (times : list Z) (t0 tl : Z) :
  Py.getitem times 0 = Py.Ok t0 ->
  Py.getitem times (-1) = Py.Ok tl ->
  t0 <> tl ->
  Spaghetti.normalized_times times = Py.Ok (map (normalize t0 tl) times).
Proof.
  intros H0 Hl Hne; unfold Spaghetti.normalized_times.
  apply comprehension_map; intros i _; cbv beta.
  unfold Spaghetti.datetime in *.
  rewrite H0, Hl; cbn; unfold Spaghetti.timedelta_truediv.
  destruct (Z.eqb_spec (tl - t0) 0); [lia|reflexivity].
Qed.

Lemma normalized_times_zero (times : list Z) (t : Z) :
  Py.getitem times 0 = Py.Ok t ->
  Py.getitem times (-1) = Py.Ok t ->
  Spaghetti.normalized_times times = Py.Raise Py.ZeroDivisionError.
Proof.
  intros H0 Hl; unfold Spaghetti.normalized_times.
  destruct (getitem_0_inv _ H0) as [l' ->].
  unfold Spaghetti.datetime in *.
  cbn [Py.comprehension]; rewrite H0, Hl; cbn.
  unfold Spaghetti.timedelta_truediv; now rewrite Z.sub_diag.
Qed.

Lemma normalize_first (t0 tl : Z) : normalize t0 tl t0 == 0.
Proof.
  unfold normalize; rewrite Z.sub_diag; unfold Qdiv; apply Qmult_0_l.
Qed.

Lemma normalize_last (t0 tl : Z) : t0 <> tl -> normalize t0 tl tl == 1.
Proof.
  intros H; unfold normalize; apply Qmult_inv_r.
  change 0 with (inject_Z 0); rewrite inject_Z_injective; lia.
Qed.

Lemma normalize_increasing (t0 tl x y : Z) :
  (t0 < tl)%Z -> (x <= y)%Z -> normalize t0 tl x <= normalize t0 tl y.
Proof.
  intros Hlt Hxy; unfold normalize, Qdiv.
  apply Qmult_le_compat_r.
  - rewrite <- Zle_Qle; lia.
  - apply Qinv_le_0_compat; change 0 with (inject_Z 0); rewrite <- Zle_Qle; lia.
Qed.

Lemma normalize_decreasing (t0 tl x y : Z) :
  (tl < t0)%Z -> (x <= y)%Z -> normalize t0 tl y <= normalize t0 tl x.
Proof.
  intros Hlt Hxy; unfold normalize.
  assert (E : forall i, inject_Z (i - t0) / inject_Z (tl - t0)
                        == inject_Z (t0 - i) / inject_Z (t0 - tl)).
  { intros i.
    assert (~ inject_Z (tl - t0) == 0)
      by (change 0 with (inject_Z 0); rewrite inject_Z_injective; lia).
    assert (~ inject_Z (t0 - tl) == 0)
      by (change 0 with (inject_Z 0); rewrite inject_Z_injective; lia).
    unfold Z.sub in *; rewrite !inject_Z_plus, !inject_Z_opp in *; field.
    split; assumption. }
  rewrite !E; unfold Qdiv.
  apply Qmult_le_compat_r.
  - rewrite <- Zle_Qle; lia.
  - apply Qinv_le_0_compat; change 0 with (inject_Z 0); rewrite <- Zle_Qle; lia.
Qed.

Lemma normalize_unit_interval (t0 tl x : Z) :
  (t0 < tl)%Z -> (t0 <= x <= tl)%Z -> 0 <= normalize t0 tl x <= 1.
Proof.
  intros Hlt Hx; split.
  - rewrite <- (normalize_first t0 tl); apply normalize_increasing; lia.
  - rewrite <- (normalize_last (t0 := t0) (tl := tl)) by lia.
    apply normalize_increasing; lia.
Qed.

Lemma nondecreasing_between (times : list Z) (t0 tl x : Z) :
  Py.getitem times 0 = Py.Ok t0 ->
  Py.getitem times (-1) = Py.Ok tl ->
  nondecreasing times ->
  In x times -> (t0 <= x <= tl)%Z.
Proof.
  intros H0 Hl Hnd Hx.
  destruct (getitem_0_inv _ H0) as [rest ->].
  rewrite (getitem_last 0%Z) in Hl by discriminate.
  injection Hl as <-.
  destruct (In_nth _ _ 0%Z Hx) as [k [Hk <-]].
  pose proof (@nth_error_last _ (t0 :: rest) 0%Z ltac:(discriminate)) as E.
  apply (nth_error_nth _ _ 0%Z) in E.
  split.
  - change t0 with (nth 0 (t0 :: rest) 0%Z) at 1; apply Hnd; lia.
  - change (nth k (t0 :: rest) 0 <= last (t0 :: rest) 0)%Z.
    rewrite <- E; apply Hnd; cbn [List.length] in *; lia.
Qed.

(** C7: for every list [times] of at least two datetimes whose first and
    last elements differ, the comprehension returns one number per element,
    the first is 0 and the last is 1, every one lies in [0, 1] when [times]
    is nondecreasing, and the map is monotone in the time it is given
    (order-preserving when the first time is before the last, order-reversing
    when it is after); for a list of exactly one element, or one whose first
    and last elements coincide, the comprehension raises ZeroDivisionError.
    A datetime counts microseconds and the quotient of two timedeltas is
    their exact ratio. *)
Theorem normalized_times_spec (times : list Spaghetti.datetime) :
  (forall t0 tl : Z,
      (2 <= List.length times)%nat ->
      Py.getitem times 0 = Py.Ok t0 ->
      Py.getitem times (-1) = Py.Ok tl ->
      t0 <> tl ->
      exists qs,
        Spaghetti.normalized_times times = Py.Ok qs
        /\ qs = map (normalize t0 tl) times
        /\ List.length qs = List.length times
        /\ (exists q0, Py.getitem qs 0 = Py.Ok q0 /\ q0 == 0)
        /\ (exists q1, Py.getitem qs (-1) = Py.Ok q1 /\ q1 == 1)
        /\ (nondecreasing times -> Forall (fun q => 0 <= q <= 1) qs)
        /\ ((t0 < tl)%Z ->
            forall x y : Z,
              (x <= y)%Z -> normalize t0 tl x <= normalize t0 tl y)
        /\ ((tl < t0)%Z ->
            forall x y : Z,
              (x <= y)%Z -> normalize t0 tl y <= normalize t0 tl x))
  /\ ((List.length times = 1%nat
       \/ exists t, Py.getitem times 0 = Py.Ok t
                    /\ Py.getitem times (-1) = Py.Ok t) ->
      Spaghetti.normalized_times times = Py.Raise Py.ZeroDivisionError).
Proof.
  split.
  - intros t0 tl Hlen H0 Hl Hne.
    exists (map (normalize t0 tl) times).
    split; [now apply normalized_times_ok|].
    split; [reflexivity|].
    split; [apply length_map|].
    split; [|split; [|split; [|split]]].
    + exists (normalize t0 tl t0); rewrite getitem_map.
      unfold Spaghetti.datetime in *; rewrite H0.
      split; [reflexivity|apply normalize_first].
    + exists (normalize t0 tl tl); rewrite getitem_map.
      unfold Spaghetti.datetime in *; rewrite Hl.
      split; [reflexivity|now apply normalize_last].
    + intros Hnd; apply Forall_forall; intros q Hq.
      apply in_map_iff in Hq; destruct Hq as [x [<- Hx]].
      pose proof (@nondecreasing_between times t0 tl x H0 Hl Hnd Hx).
      apply normalize_unit_interval; lia.
    + intros; now apply normalize_increasing.
    + intros; now apply normalize_decreasing.
  - intros [Hone|[t [H0 Hl]]].
    + destruct times as [|t [|t' rest]]; try discriminate.
      apply (@normalized_times_zero [t] t); reflexivity.
    + apply (@normalized_times_zero times t); assumption.
Qed.

(** Three initializations six hours apart, and a single one. *)
Lemma normalized_times_spec_witness :
  (exists qs,
      Spaghetti.normalized_times [0; 21600000000; 43200000000]%Z = Py.Ok qs
      /\ qs = map (normalize 0 43200000000) [0; 21600000000; 43200000000]%Z
      /\ List.length qs = 3%nat
      /\ (exists q0, Py.getitem qs 0 = Py.Ok q0 /\ q0 == 0)
      /\ (exists q1, Py.getitem qs (-1) = Py.Ok q1 /\ q1 == 1)
      /\ (nondecreasing [0; 21600000000; 43200000000]%Z ->
          Forall (fun q => 0 <= q <= 1) qs)
      /\ ((0 < 43200000000)%Z ->
          forall x y : Z,
            (x <= y)%Z ->
            normalize 0 43200000000 x <= normalize 0 43200000000 y)
      /\ ((43200000000 < 0)%Z ->
          forall x y : Z,
            (x <= y)%Z ->
            normalize 0 43200000000 y <= normalize 0 43200000000 x))
  /\ Spaghetti.normalized_times [21600000000]%Z
     = Py.Raise Py.ZeroDivisionError.
Proof.
  split.
  - apply (proj1 (normalized_times_spec [0; 21600000000; 43200000000]%Z)).
    + simpl; lia.
    + reflexivity.
    + reflexivity.
    + lia.
  - apply (proj2 (normalized_times_spec [21600000000]%Z)).
    left; reflexivity.
Defined.

(** ** The counter of the temporal colormapping, when the loop is reached *)




(** ** The colorbar of the contour plot *)

Lemma cbar_year_n (year_n : Z) :
  (year_n - Spaghetti.year_0 = Spaghetti.n)%Z -> year_n = 1977%Z.
Proof.
  unfold Spaghetti.year_0, Spaghetti.n; lia.
Qed.

(** C2: with n = 19 colors, a norm over [year_0, year_n] and
    year_n - year_0 = n, the ticks [np.arange(year_0 + 0.5, year_n)] are the
    19 midpoints of the 19 color boxes, box by box: the j-th tick is the
    midpoint of box j, is drawn in color j, and the boxes are adjacent, of
    width one year, from year_0 to year_n; the labels
    [np.arange(year_0, year_n)] are the 19 years year_0 + j, as many as the
    ticks, and [set_ticklabels] gives the j-th tick year_0 + j + 0.5 the
    label year_0 + j. *)
Theorem colorbar_ticks_at_midpoints (year_n : Z) :
  (year_n - Spaghetti.year_0 = Spaghetti.n)%Z ->
  List.length (Spaghetti.cbar_ticks year_n) = Z.to_nat Spaghetti.n
  /\ Forall2 Qeq (Spaghetti.cbar_ticks year_n)
       (map (fun j => Mpl.box_mid Spaghetti.n (inject_Z Spaghetti.year_0)
                        (inject_Z year_n) (Z.of_nat j))
            nineteen)
  /\ Forall2 (fun tick j =>
                Mpl.call_float Spaghetti.n
                  (Mpl.Normalize (inject_Z Spaghetti.year_0) (inject_Z year_n)
                     tick)
                = Mpl.Entry (Z.of_nat j))
       (Spaghetti.cbar_ticks year_n) nineteen
  /\ Forall (fun j =>
               Mpl.box_lo Spaghetti.n (inject_Z Spaghetti.year_0)
                 (inject_Z year_n) (Z.of_nat j)
               == inject_Z (Spaghetti.year_0 + Z.of_nat j)
               /\ Mpl.box_hi Spaghetti.n (inject_Z Spaghetti.year_0)
                    (inject_Z year_n) (Z.of_nat j)
                  == inject_Z (Spaghetti.year_0 + Z.of_nat j + 1))
       nineteen
  /\ Spaghetti.cbar_ticklabels year_n
     = Py.Ok (map (fun j => (Spaghetti.year_0 + Z.of_nat j)%Z) nineteen)
  /\ Spaghetti.cbar_labelled_ticks year_n
     = Py.Ok (map (fun j =>
                     (inject_Z Spaghetti.year_0 + (1#2) + inject_Z (Z.of_nat j),
                      (Spaghetti.year_0 + Z.of_nat j)%Z))
                  nineteen).
Proof.
  intros H; apply cbar_year_n in H; subst year_n.
  split; [reflexivity|].
  split; [repeat constructor; reflexivity|].
  split; [repeat constructor; vm_compute; reflexivity|].
  split; [repeat constructor; reflexivity|].
  split; reflexivity.
Qed.

(** The colorbar of the data set, whose last year is 1977. *)
Lemma colorbar_ticks_at_midpoints_witness :
  List.length (Spaghetti.cbar_ticks 1977) = Z.to_nat Spaghetti.n
  /\ Forall2 Qeq (Spaghetti.cbar_ticks 1977)
       (map (fun j => Mpl.box_mid Spaghetti.n (inject_Z Spaghetti.year_0)
                        (inject_Z 1977) (Z.of_nat j))
            nineteen)
  /\ Forall2 (fun tick j =>
                Mpl.call_float Spaghetti.n
                  (Mpl.Normalize (inject_Z Spaghetti.year_0) (inject_Z 1977)
                     tick)
                = Mpl.Entry (Z.of_nat j))
       (Spaghetti.cbar_ticks 1977) nineteen
  /\ Forall (fun j =>
               Mpl.box_lo Spaghetti.n (inject_Z Spaghetti.year_0)
                 (inject_Z 1977) (Z.of_nat j)
               == inject_Z (Spaghetti.year_0 + Z.of_nat j)
               /\ Mpl.box_hi Spaghetti.n (inject_Z Spaghetti.year_0)
                    (inject_Z 1977) (Z.of_nat j)
                  == inject_Z (Spaghetti.year_0 + Z.of_nat j + 1))
       nineteen
  /\ Spaghetti.cbar_ticklabels 1977
     = Py.Ok (map (fun j => (Spaghetti.year_0 + Z.of_nat j)%Z) nineteen)
  /\ Spaghetti.cbar_labelled_ticks 1977
     = Py.Ok (map (fun j =>
                     (inject_Z Spaghetti.year_0 + (1#2) + inject_Z (Z.of_nat j),
                      (Spaghetti.year_0 + Z.of_nat j)%Z))
                  nineteen).
Proof.
  apply (colorbar_ticks_at_midpoints 1977); reflexivity.
Defined.

(** The same alignment for any number of colors and any first year. *)

Lemma Qfloor_between (x : Q) (j : Z) :
  inject_Z j <= x -> x < inject_Z (j + 1) -> Qfloor x = j.
Proof.
  intros Hlo Hhi.
  pose proof (Qfloor_le x) as Hf1; pose proof (Qlt_floor x) as Hf2.
  assert (inject_Z j < inject_Z (Qfloor x + 1)) as H1 by lra.
  assert (inject_Z (Qfloor x) < inject_Z (j + 1)) as H2 by lra.
  rewrite <- Zlt_Qlt in H1, H2; lia.
Qed.

Lemma Qceiling_between (x : Q) (j : Z) :
  inject_Z (j - 1) < x -> x <= inject_Z j -> Qceiling x = j.
Proof.
  intros Hlo Hhi; unfold Qceiling.
  rewrite (@Qfloor_between (- x) (- j)); [lia| |].
  - rewrite inject_Z_opp; lra.
  - replace (- j + 1)%Z with (- (j - 1))%Z by lia.
    rewrite inject_Z_opp; lra.
Qed.

(** A data value inside box [j] is drawn in color [j]. *)
Lemma box_color (n : Z) (vmin vmax v : Q) (j : Z) :
  (0 <= j < n)%Z ->
  vmin < vmax ->
  Mpl.box_lo n vmin vmax j <= v ->
  v < Mpl.box_hi n vmin vmax j ->
  Mpl.call_float n (Mpl.Normalize vmin vmax v) = Mpl.Entry j.
Proof.
  intros Hj Hv Hlo Hhi.
  unfold Mpl.box_lo, Mpl.box_hi in *.
  assert (Hn : 0 < inject_Z n)
    by (change 0 with (inject_Z 0); rewrite <- Zlt_Qlt; lia).
  set (d := (vmax - vmin) / inject_Z n) in *.
  assert (Hd : 0 < d) by (apply Qlt_shift_div_l; lra).
  assert (Hw : vmax - vmin == d * inject_Z n)
    by (unfold d; field; lra).
  assert (E : Mpl.Normalize vmin vmax v * inject_Z n == (v - vmin) / d).
  { unfold Mpl.Normalize; rewrite Hw; field; split; lra. }
  assert (Hge : inject_Z j <= (v - vmin) / d)
    by (apply Qle_shift_div_l; lra).
  assert (Hlt : (v - vmin) / d < inject_Z (j + 1))
    by (apply Qlt_shift_div_r; lra).
  assert (Hjn : inject_Z (j + 1) <= inject_Z n) by (rewrite <- Zle_Qle; lia).
  assert (H0j : 0 <= inject_Z j)
    by (change 0 with (inject_Z 0); rewrite <- Zle_Qle; lia).
  unfold Mpl.call_float.
  destruct (Qlt_le_dec (Mpl.Normalize vmin vmax v * inject_Z n) 0) as [Hneg|_];
    [lra|].
  destruct (Qeq_bool (Mpl.Normalize vmin vmax v * inject_Z n) (inject_Z n))
    eqn:Heq; [apply Qeq_bool_eq in Heq; lra|].
  rewrite (@Qfloor_between _ j) by lra.
  destruct (Z.ltb_spec (n - 1) j); [lia|reflexivity].
Qed.

Lemma box_mid_year (m : nat) (y0 : Z) (j : Z) :
  (0 < m)%nat ->
  Mpl.box_mid (Z.of_nat m) (inject_Z y0) (inject_Z (y0 + Z.of_nat m)) j
  == inject_Z y0 + (1#2) + inject_Z j.
Proof.
  intros Hm.
  assert (~ inject_Z (Z.of_nat m) == 0)
    by (change 0 with (inject_Z 0); rewrite inject_Z_injective; lia).
  unfold Mpl.box_mid, Mpl.box_lo, Mpl.box_hi.
  rewrite !inject_Z_plus; change (inject_Z 1) with 1; field; assumption.
Qed.

Lemma arange_float_midyears (m : nat) (y0 : Z) :
  Np.arange_float (inject_Z y0 + (1#2)) (inject_Z (y0 + Z.of_nat m))
  = map (fun k => inject_Z y0 + (1#2) + inject_Z (Z.of_nat k)) (seq 0 m).
Proof.
  unfold Np.arange_float.
  rewrite (@Qceiling_between _ (Z.of_nat m)).
  - now rewrite Nat2Z.id.
  - unfold Z.sub; rewrite !inject_Z_plus, inject_Z_opp.
    change (inject_Z 1) with 1; lra.
  - rewrite !inject_Z_plus; lra.
Qed.

(** For every number [m > 0] of colors and a norm over
    [y0, y0 + m], [np.arange(y0 + 0.5, y0 + m)] lists the midpoints of the
    [m] color boxes in order. *)
Lemma ticks_at_midpoints_any (m : nat) (y0 : Z) :
  (0 < m)%nat ->
  Forall2 Qeq
    (Np.arange_float (inject_Z y0 + (1#2)) (inject_Z (y0 + Z.of_nat m)))
    (map (fun j => Mpl.box_mid (Z.of_nat m) (inject_Z y0)
                     (inject_Z (y0 + Z.of_nat m)) (Z.of_nat j))
         (seq 0 m)).
Proof.
  intros Hm; rewrite arange_float_midyears.
  induction (seq 0 m) as [|k ks IH]; cbn; constructor; [|exact IH].
  symmetry; now apply box_mid_year.
Qed.

(** ** Where the normalized values come from *)

Lemma times_env_i (times : list Z) (w : Source.value) :
  Source.upd (Source.times_env times) "i" w "i" = Some w
  /\ Source.upd (Source.times_env times) "i" w "times"
     = Some (Source.VList (map Source.VInt times)).
Proof.
  split; reflexivity.
Qed.

(** The body of the comprehension, evaluated as syntax, is the body of
    [Spaghetti.normalized_times]; no library function is consulted. *)
Lemma eval_normalized_body
    (lib : string -> list Source.value -> Py.result Source.value)
    (times : list Z) (i : Z) :
  Source.eval lib (Source.upd (Source.times_env times) "i" (Source.VInt i))
    (Source.Div
       (Source.Sub (Source.Var "i") (Source.Index (Source.Var "times") 0))
       (Source.Sub (Source.Index (Source.Var "times") (-1))
          (Source.Index (Source.Var "times") 0)))
  = result_map Source.VFloat
      (Py.bind (Py.getitem times 0) (fun t0 =>
       Py.bind (Py.getitem times (-1)) (fun tl =>
       Py.bind (Py.getitem times 0) (fun t0' =>
       Spaghetti.timedelta_truediv (i - t0)%Z (tl - t0')%Z)))).
Proof.
  cbn [Source.eval].
  destruct (times_env_i times (Source.VInt i)) as [-> ->].
  cbn [Nb.name Py.bind]; rewrite !getitem_map.
  destruct (Py.getitem times 0) as [t0|e]; cbn; [|reflexivity].
  destruct (Py.getitem times (-1)) as [tl|e]; cbn; [|reflexivity].
  unfold Spaghetti.timedelta_truediv.
  destruct (tl - t0 =? 0)%Z; reflexivity.
Qed.

Lemma eval_normalized_comprehension
    (lib : string -> list Source.value -> Py.result Source.value)
    (times l : list Z) :
  Py.comprehension
    (fun w =>
       Source.eval lib (Source.upd (Source.times_env times) "i" w)
         (Source.Div
            (Source.Sub (Source.Var "i") (Source.Index (Source.Var "times") 0))
            (Source.Sub (Source.Index (Source.Var "times") (-1))
               (Source.Index (Source.Var "times") 0))))
    (map Source.VInt l)
  = result_map (map Source.VFloat)
      (Py.comprehension
         (fun i : Z =>
            Py.bind (Py.getitem times 0) (fun t0 =>
            Py.bind (Py.getitem times (-1)) (fun tl =>
            Py.bind (Py.getitem times 0) (fun t0' =>
            Spaghetti.timedelta_truediv (i - t0)%Z (tl - t0')%Z))))
         l).
Proof.
  induction l as [|i l IH]; [reflexivity|].
  cbn [map Py.comprehension].
  rewrite eval_normalized_body, IH.
  destruct (Py.bind (Py.getitem times 0) _) as [q|e]; cbn; [|reflexivity].
  destruct (Py.comprehension _ l) as [qs|e]; reflexivity.
Qed.

Lemma eval_ListComp
    (lib : string -> list Source.value -> Py.result Source.value)
    (rho : Source.env) (body : Source.expr) (x : string) (src : Source.expr) :
  Source.eval lib rho (Source.ListComp body x src)
  = Py.bind (Source.eval lib rho src) (fun v =>
      match v with
      | Source.VList l =>
          Py.bind
            (Py.comprehension
               (fun w => Source.eval lib (Source.upd rho x w) body) l)
            (fun vs => Py.Ok (Source.VList vs))
      | _ => Py.Raise Py.TypeError
      end).
Proof.
  reflexivity.
Qed.

(** Whatever the libraries do, the syntax of [normalized_times] evaluates
    to what the embedded cell computes. *)
Lemma eval_normalized_times
    (lib : string -> list Source.value -> Py.result Source.value)
    (times : list Z) :
  Source.eval lib (Source.times_env times) Source.normalized_times_expr
  = Source.floats (Spaghetti.normalized_times times).
Proof.
  unfold Source.normalized_times_expr, Source.floats,
    Spaghetti.normalized_times.
  rewrite eval_ListComp.
  change (Source.eval lib (Source.times_env times) (Source.Var "times"))
    with (Py.Ok (Source.VList (map Source.VInt times))).
  cbn [Py.bind].
  rewrite eval_normalized_comprehension.
  unfold Spaghetti.datetime.
  destruct (Py.comprehension _ times) as [qs|e]; reflexivity.
Qed.

(** C1, as stated, fails: [normalized_times], which the notebook passes to
    [plt.cm.autumn_r] and to the colorbar ticks, is not a library call; the
    notebook's own subtraction and division produce it, and they do so in a
    setting where no library function is available at all. *)
Lemma normalized_times_not_delegated :
  In Source.normalized_times_expr Source.colormap_inputs
  /\ forallb Source.delegated Source.colormap_inputs = false
  /\ Source.delegated Source.normalized_times_expr = false
  /\ Source.eval Source.no_library
       (Source.times_env [0; 21600000000; 43200000000]%Z)
       Source.normalized_times_expr
     = Py.Ok (Source.VList
                [Source.VFloat (0 # 43200000000);
                 Source.VFloat (21600000000 # 43200000000);
                 Source.VFloat (43200000000 # 43200000000)]).
Proof.
  split; [now left|].
  split; [reflexivity|].
  split; reflexivity.
Qed.

(** C1, amended: of the values the notebook computes to drive a colormap,
    [bounds] and [norm] of the contour plot are each one call of a function
    of an imported module ([np.linspace], [plt.Normalize]) over literals and
    names: whatever the libraries do, the value is the one the library
    function returns on these arguments, and with no library there is none.
    [normalized_times] of the hurricane plot is not: the notebook's own
    subtraction and division [(i - times[0]) / (times[-1] - times[0])]
    produce it, and under every behaviour of the libraries its value is the
    one [Spaghetti.normalized_times] computes. *)
Theorem colormap_inputs_provenance :
  Source.colormap_inputs
  = [Source.normalized_times_expr; Source.bounds_expr; Source.norm_expr]
  /\ Forall (fun e => Source.delegated e = true)
       [Source.bounds_expr; Source.norm_expr]
  /\ (forall (lib : string -> list Source.value -> Py.result Source.value)
             (rho : Source.env) (vn : Source.value),
         Source.binds rho ["n"] [vn] ->
         Source.eval lib rho Source.bounds_expr
         = lib "np.linspace" [Source.VInt 0; Source.VInt 1; vn])
  /\ (forall (lib : string -> list Source.value -> Py.result Source.value)
             (rho : Source.env) (v0 vn : Source.value),
         Source.binds rho ["year_0"; "year_n"] [v0; vn] ->
         Source.eval lib rho Source.norm_expr
         = lib "plt.Normalize" [v0; vn])
  /\ (forall (rho : Source.env) (num v0 vn : Source.value),
         Source.binds rho ["n"; "year_0"; "year_n"] [num; v0; vn] ->
         Source.eval Source.no_library rho Source.bounds_expr
         = Py.Raise (Py.NameError "np.linspace")
         /\ Source.eval Source.no_library rho Source.norm_expr
            = Py.Raise (Py.NameError "plt.Normalize"))
  /\ Source.delegated Source.normalized_times_expr = false
  /\ Source.own_arithmetic Source.normalized_times_expr = true
  /\ (forall (lib : string -> list Source.value -> Py.result Source.value)
             (times : list Z),
         Source.eval lib (Source.times_env times) Source.normalized_times_expr
         = Source.floats (Spaghetti.normalized_times times)).
Proof.
  split; [reflexivity|].
  split; [repeat constructor|].
  split.
  { intros lib rho vn [Hn _]; cbn.
    unfold Nb.name; now rewrite Hn. }
  split.
  { intros lib rho v0 vn (H0 & Hn & _); cbn.
    unfold Nb.name; now rewrite H0, Hn. }
  split.
  { intros rho num v0 vn (Hn & H0 & Hn' & _); cbn.
    unfold Nb.name; now rewrite Hn, H0, Hn'. }
  split; [reflexivity|].
  split; [reflexivity|].
  exact eval_normalized_times.
Qed.

(** The contour cell's names with [year_n = 1977], and a library that
    holds [np.linspace]: [bounds] is the library's result. *)
Lemma colormap_inputs_provenance_witness :
  Source.eval numpy_only (contour_env 1977) Source.bounds_expr
  = Source.floats (Contour.linspace 0 1 Spaghetti.n)
  /\ Source.eval Source.no_library (contour_env 1977) Source.norm_expr
     = Py.Raise (Py.NameError "plt.Normalize").
Proof.
  destruct colormap_inputs_provenance
    as (_ & _ & Hbounds & _ & Hnone & _).
  split.
  - apply (Hbounds numpy_only (contour_env 1977)
             (Source.VInt Spaghetti.n)).
    split; [reflexivity|exact I].
  - apply (Hnone (contour_env 1977) (Source.VInt Spaghetti.n)
             (Source.VInt Spaghetti.year_0) (Source.VInt 1977)).
    repeat split; reflexivity.
Defined.

(** * The rest of the notebook *)

(** ** The ticks of the temporal colorbar *)

Lemma bind_Ok {A B : Type} (a : A) (k : A -> Py.result B) :
  Py.bind (Py.Ok a) k = k a.
Proof.
  reflexivity.
Qed.

Lemma getitem_nat {A : Type} (l : list A) (i : nat) :
  Py.getitem l (Z.of_nat i)
  = match nth_error l i with
    | Some a => Py.Ok a
    | None => Py.Raise Py.IndexError
    end.
Proof.
  unfold Py.getitem.
  destruct (Z.ltb_spec (Z.of_nat i) 0) as [H|_]; [lia|].
  destruct (Z.ltb_spec (Z.of_nat i) 0) as [H|_]; [lia|].
  now rewrite Nat2Z.id.
Qed.

Lemma pick_in_range {A : Type} (l : list A) (idxs : list nat) :
  Forall (fun i => (i < List.length l)%nat) idxs ->
  List.length (pick l idxs) = List.length idxs.
Proof.
  unfold pick; induction 1 as [|i idxs Hi _ IH]; cbn; [reflexivity|].
  destruct (nth_error l i) eqn:E; [cbn; now rewrite IH|].
  apply nth_error_None in E; lia.
Qed.

Lemma pick_map {A B : Type} (f : A -> B) (l : list A) (idxs : list nat) :
  pick (map f l) idxs = map f (pick l idxs).
Proof.
  unfold pick; induction idxs as [|i idxs IH]; cbn; [reflexivity|].
  rewrite map_app, <- IH, nth_error_map.
  destruct (nth_error l i); reflexivity.
Qed.

Lemma in_pick {A : Type} (l : list A) (idxs : list nat) (x : A) :
  In x (pick l idxs) -> In x l.
Proof.
  unfold pick; intros H; apply in_flat_map in H.
  destruct H as [i [_ H]].
  destruct (nth_error l i) eqn:E; [|contradiction].
  destruct H as [<-|[]]; now apply nth_error_In with i.
Qed.

Lemma comprehension_pick {A B : Type} (f : A -> B) (l : list A)
    (idxs : list nat) :
  Forall (fun i => (i < List.length l)%nat) idxs ->
  Py.comprehension
    (fun i => Py.bind (Py.getitem l i) (fun a => Py.Ok (f a)))
    (map Z.of_nat idxs)
  = Py.Ok (map f (pick l idxs)).
Proof.
  unfold pick; induction 1 as [|i idxs Hi _ IH]; cbn; [reflexivity|].
  rewrite getitem_nat, IH.
  destruct (nth_error l i) eqn:E; [reflexivity|].
  apply nth_error_None in E; lia.
Qed.

Lemma comprehension_getitem {A : Type} (l : list A) (idxs : list nat) :
  Forall (fun i => (i < List.length l)%nat) idxs ->
  Py.comprehension (fun i => Py.getitem l i) (map Z.of_nat idxs)
  = Py.Ok (pick l idxs).
Proof.
  unfold pick; induction 1 as [|i idxs Hi _ IH]; cbn; [reflexivity|].
  rewrite getitem_nat, IH.
  destruct (nth_error l i) eqn:E; [reflexivity|].
  apply nth_error_None in E; lia.
Qed.

Lemma fourths_in_range (k : nat) :
  Forall (fun i => (i < k)%nat) (fourths k).
Proof.
  apply Forall_forall; intros i Hi.
  unfold fourths, tick_count in Hi; apply in_map_iff in Hi.
  destruct Hi as [j [<- Hj]]; apply in_seq in Hj.
  pose proof (Nat.div_mod_eq (k + 3) 4).
  pose proof (Nat.mod_upper_bound (k + 3) 4).
  lia.
Qed.

Lemma tick_indices_fourths (times : list Z) :
  Colorbar.tick_indices times
  = Py.Ok (map Z.of_nat (fourths (List.length times))).
Proof.
  unfold Colorbar.tick_indices, Colorbar.range_step, Py.len, fourths,
    tick_count, Spaghetti.datetime; cbn [Z.eqb].
  assert (E : Z.to_nat (- ((0 - Z.of_nat (List.length times)) / 4))
              = ((List.length times + 3) / 4)%nat).
  { pose proof (Nat.div_mod_eq (List.length times + 3) 4).
    pose proof (Nat.mod_upper_bound (List.length times + 3) 4).
    pose proof (Z.div_mod (0 - Z.of_nat (List.length times)) 4).
    pose proof (Z.mod_pos_bound (0 - Z.of_nat (List.length times)) 4).
    lia. }
  rewrite E, map_map; f_equal.
  apply map_ext; intros j; lia.
Qed.

Lemma fourths_length (k : nat) :
  List.length (fourths k) = tick_count k.
Proof.
  unfold fourths; now rewrite length_map, length_seq.
Qed.

(** The colorbar cell's ticks and labels, whenever the normalization
    succeeded. *)
Lemma temporal_colorbar_run
    (strftime_d : Z -> string) (times : list Z) (normalized : list Q) :
  Spaghetti.normalized_times times = Py.Ok normalized ->
  Colorbar.temporal_colorbar strftime_d times normalized
  = Py.Ok (combine (pick normalized (fourths (List.length times)))
             (map strftime_d (pick times (fourths (List.length times))))).
Proof.
  intros Hn; unfold Spaghetti.datetime in *.
  pose proof (comprehension_length _ _ Hn) as Hlen.
  pose proof (fourths_in_range (List.length times)) as Hin.
  assert (Hin' : Forall (fun i => (i < List.length normalized)%nat)
                   (fourths (List.length times)))
    by now rewrite Hlen.
  unfold Colorbar.temporal_colorbar, Spaghetti.datetime.
  rewrite tick_indices_fourths, bind_Ok.
  rewrite (comprehension_getitem normalized Hin'), bind_Ok.
  rewrite (comprehension_pick strftime_d times Hin), bind_Ok.
  unfold Colorbar.pair_ticklabels.
  rewrite length_map, (pick_in_range normalized Hin'),
    (pick_in_range times Hin), Nat.eqb_refl.
  reflexivity.
Qed.

(** X1: the colorbar of the temporal colormapping gets one tick for every
    fourth initialization: for any times whose normalization succeeded, no
    index of [tick_indices] is out of range, the ticks are the normalized
    times at the positions 0, 4, 8, ..., the labels are the days of the times
    at the same positions, and there are as many labels as ticks, namely
    ceil(len(times) / 4). *)
Theorem temporal_colorbar_every_fourth
    (strftime_d : Spaghetti.datetime -> string)
    (times : list Spaghetti.datetime) (normalized : list Q) :
  Spaghetti.normalized_times times = Py.Ok normalized ->
  Colorbar.temporal_colorbar strftime_d times normalized
  = Py.Ok (combine (pick normalized (fourths (List.length times)))
             (map strftime_d (pick times (fourths (List.length times)))))
  /\ List.length (pick normalized (fourths (List.length times)))
     = tick_count (List.length times)
  /\ List.length (pick times (fourths (List.length times)))
     = tick_count (List.length times).
Proof.
  intros Hn.
  split; [exact (@temporal_colorbar_run strftime_d times normalized Hn)|].
  unfold Spaghetti.datetime in *.
  pose proof (comprehension_length _ _ Hn) as Hlen.
  pose proof (fourths_in_range (List.length times)) as Hin.
  split.
  - rewrite pick_in_range; [apply fourths_length|].
    now rewrite Hlen.
  - rewrite pick_in_range; [apply fourths_length|exact Hin].
Qed.

(** Five initializations six hours apart: ticks at the first and the
    fifth. *)
Lemma temporal_colorbar_every_fourth_witness :
  Colorbar.temporal_colorbar (fun t => Py.str (t / 86400000000 + 22))
    [0; 21600000000; 43200000000; 64800000000; 86400000000]%Z
    (map (normalize 0 86400000000)
       [0; 21600000000; 43200000000; 64800000000; 86400000000]%Z)
  = Py.Ok [(normalize 0 86400000000 0, "22");
           (normalize 0 86400000000 86400000000, "23")]
  /\ List.length
       (pick (map (normalize 0 86400000000)
                [0; 21600000000; 43200000000; 64800000000; 86400000000]%Z)
          (fourths 5))
     = 2%nat
  /\ List.length
       (pick [0; 21600000000; 43200000000; 64800000000; 86400000000]%Z
          (fourths 5))
     = 2%nat.
Proof.
  apply (temporal_colorbar_every_fourth
           (fun t => Py.str (t / 86400000000 + 22))
           [0; 21600000000; 43200000000; 64800000000; 86400000000]%Z
           eq_refl).
Defined.

Lemma fourths_S (k : nat) :
  fourths (S k) = 0%nat :: map (fun j => (4 * j)%nat) (seq 1 (k / 4)).
Proof.
  unfold fourths, tick_count.
  replace (S k + 3)%nat with (k + 1 * 4)%nat by lia.
  rewrite Nat.div_add by discriminate.
  replace (k / 4 + 1)%nat with (S (k / 4)) by lia.
  reflexivity.
Qed.

(** X2: when the initialization times are nondecreasing and the first
    differs from the last, every tick the cell sets lies in [0, 1], the
    range of the colorbar, and the first tick is 0 with the day of the
    first initialization as its label. *)
Theorem temporal_colorbar_ticks_in_range
    (strftime_d : Spaghetti.datetime -> string)
    (times : list Spaghetti.datetime) (t0 tl : Z) (normalized : list Q) :
  Py.getitem times 0 = Py.Ok t0 ->
  Py.getitem times (-1) = Py.Ok tl ->
  t0 <> tl ->
  nondecreasing times ->
  Spaghetti.normalized_times times = Py.Ok normalized ->
  exists q0 rest,
    Colorbar.temporal_colorbar strftime_d times normalized
    = Py.Ok ((q0, strftime_d t0) :: rest)
    /\ q0 == 0
    /\ Forall (fun tick => 0 <= fst tick <= 1) ((q0, strftime_d t0) :: rest).
Proof.
  intros H0 Hl Hne Hnd Hn; unfold Spaghetti.datetime in *.
  pose proof (@temporal_colorbar_run strftime_d times normalized Hn) as Hrun.
  rewrite (@normalized_times_ok times t0 tl H0 Hl Hne) in Hn; injection Hn as <-.
  rewrite pick_map in Hrun.
  assert (Hall : Forall (fun tick : Q * string => 0 <= fst tick <= 1)
                   (combine
                      (map (normalize t0 tl)
                         (pick times (fourths (List.length times))))
                      (map strftime_d
                         (pick times (fourths (List.length times)))))).
  { apply Forall_forall; intros [q lbl] Hin; cbn [fst].
    apply in_combine_l in Hin; apply in_map_iff in Hin.
    destruct Hin as [x [<- Hx]]; apply in_pick in Hx.
    pose proof (@nondecreasing_between times t0 tl x H0 Hl Hnd Hx).
    apply normalize_unit_interval; lia. }
  destruct (getitem_0_inv _ H0) as [times' ->].
  cbn [List.length] in *; rewrite fourths_S in *.
  unfold pick in *; cbn [flat_map nth_error app map combine] in *.
  exists (normalize t0 tl t0); eexists.
  split; [exact Hrun|].
  split; [apply normalize_first|exact Hall].
Qed.

(** Five initializations six hours apart. *)
Lemma temporal_colorbar_ticks_in_range_witness :
  exists q0 rest,
    Colorbar.temporal_colorbar (fun t => Py.str (t / 86400000000 + 22))
      [0; 21600000000; 43200000000; 64800000000; 86400000000]%Z
      (map (normalize 0 86400000000)
         [0; 21600000000; 43200000000; 64800000000; 86400000000]%Z)
    = Py.Ok ((q0, "22") :: rest)
    /\ q0 == 0
    /\ Forall (fun tick => 0 <= fst tick <= 1) ((q0, "22") :: rest).
Proof.
  apply (@temporal_colorbar_ticks_in_range
           (fun t => Py.str (t / 86400000000 + 22))
           [0; 21600000000; 43200000000; 64800000000; 86400000000]%Z
           0%Z 86400000000%Z _ eq_refl eq_refl).
  - lia.
  - intros a b Hab; cbn [List.length] in Hab.
    do 5 (destruct a as [|a]; [do 5 (destruct b as [|b]; [cbn; lia|]); lia|]).
    lia.
  - reflexivity.
Defined.

(** ** A single initialization *)

(** X3: when [forecasts_AP01] holds exactly one initialization, the cell
    with the temporal colormapping stops with ZeroDivisionError at the
    normalization: the Axes has been set up, and no line is drawn on it. *)
Theorem spaghetti_temporal_single_initialization
    (strptime : string -> Py.result Spaghetti.datetime)
    (autumn_r : Q -> Mpl.color)
    (forecasts : Py.dict (Py.dict Spaghetti.Track))
    (key : string) (trk sandy_ds : Spaghetti.Track) (t : Spaghetti.datetime)
    (st : Mpl.pyplot) :
  Py.lookup forecasts "AP01" = Py.Ok [(key, trk)] ->
  strptime key = Py.Ok t ->
  Spaghetti.spaghetti_temporal strptime autumn_r forecasts sandy_ds st
  = (last_axes (Mpl.all_axes st) hurricane_axes,
     Py.Raise Py.ZeroDivisionError)
  /\ Mpl.lines hurricane_axes = [].
Proof.
  intros Hap Ht; split; [|reflexivity].
  unfold Spaghetti.spaghetti_temporal.
  unfold Nb.bind at 1; rewrite setup_axes_run.
  unfold Nb.bind at 1, Nb.lift at 1; rewrite Hap.
  unfold Nb.bind at 1, Nb.lift at 1; cbn [Py.keys map fst Py.comprehension].
  rewrite Ht; cbn [Py.bind].
  unfold Nb.bind at 1, Nb.lift at 1.
  rewrite (@normalized_times_zero [t] t eq_refl eq_refl).
  reflexivity.
Qed.

(** One initialization of the example data. *)
Lemma spaghetti_temporal_single_initialization_witness :
  Spaghetti.spaghetti_temporal example_strptime example_autumn_r
    [("AP01", [("2012102206", example_sandy)])] example_sandy empty_figure
  = (last_axes [] hurricane_axes, Py.Raise Py.ZeroDivisionError)
  /\ Mpl.lines hurricane_axes = [].
Proof.
  apply (@spaghetti_temporal_single_initialization example_strptime
           example_autumn_r [("AP01", [("2012102206", example_sandy)])]
           "2012102206" example_sandy example_sandy 21600000000%Z
           empty_figure eq_refl eq_refl).
Defined.

(** ** All ensemble members at one initialization *)

Lemma for_each_app {A Acc : Type} (l1 l2 : list A)
    (body : A -> Acc -> Nb.cell Acc) (acc : Acc) (st : Mpl.pyplot) :
  Nb.for_each (l1 ++ l2) body acc st
  = match Nb.for_each l1 body acc st with
    | (st', Py.Ok acc') => Nb.for_each l2 body acc' st'
    | (st', Py.Raise e) => (st', Py.Raise e)
    end.
Proof.
  revert acc st; induction l1 as [|x l1 IH]; intros acc st; cbn; [reflexivity|].
  unfold Nb.bind; destruct (body x acc st) as [st' [acc'|e]]; [apply IH|reflexivity].
Qed.

Lemma lookup_raise_inv {V : Type} (d : Py.dict V) (k : string) (e : Py.exn) :
  Py.lookup d k = Py.Raise e -> e = Py.KeyError k.
Proof.
  induction d as [|[k' v] d IH]; cbn; [now intros [= <-]|].
  destruct (String.eqb k' k); [discriminate|exact IH].
Qed.

Lemma getitem_member_key (i : nat) :
  (i < 20)%nat ->
  Py.getitem Spaghetti.GFS_keys (Z.of_nat i) = Py.Ok (member_key i).
Proof.
  intros Hi; rewrite getitem_nat; unfold member_key.
  now rewrite (nth_error_nth' Spaghetti.GFS_keys "" Hi).
Qed.

(** One iteration of the loop over the members. *)
Lemma plot_member_step (forecasts : Py.dict (Py.dict Spaghetti.Track))
    (i : nat) (acc : option (list Mpl.Line2D)) (l : list Mpl.Axes)
    (a : Mpl.Axes) :
  (i < 20)%nat ->
  Spaghetti.plot_member forecasts (Z.of_nat i) acc (last_axes l a)
  = match member_track forecasts i with
    | Py.Ok trk =>
        if (List.length (Spaghetti.lon trk)
            =? List.length (Spaghetti.lat trk))%nat
        then
          (last_axes l
             (Mpl.add_line (forecast_line Spaghetti.cornflowerblue trk) a),
           Py.Ok (Some [forecast_line Spaghetti.cornflowerblue trk]))
        else (last_axes l a, Py.Raise Py.ValueError)
    | Py.Raise e => (last_axes l a, Py.Raise e)
    end.
Proof.
  intros Hi; unfold Spaghetti.plot_member, member_track.
  unfold Nb.bind, Nb.lift, Nb.ret.
  rewrite (getitem_member_key Hi); cbv beta iota.
  destruct (Py.lookup forecasts (member_key i)) as [ap|e];
    cbv beta iota; cbn [Py.bind]; [|reflexivity].
  destruct (Py.lookup ap Spaghetti.time) as [trk|e];
    cbv beta iota; [|reflexivity].
  destruct (Nat.eqb_spec (List.length (Spaghetti.lon trk))
              (List.length (Spaghetti.lat trk))) as [E|E].
  - now rewrite (plot_last l a _ _ _ _ _ E).
  - now rewrite (plot_mismatch l a _ _ _ _ _ E).
Qed.

Lemma last_drawn_cons acc t trks :
  last_drawn (Some [forecast_line Spaghetti.cornflowerblue t]) trks
  = last_drawn acc (t :: trks).
Proof.
  unfold last_drawn; cbn.
  destruct (rev trks) as [|t' r]; reflexivity.
Qed.

(** The loop over the members [a0 .. a0 + m - 1], all of them present. *)
Lemma members_loop (forecasts : Py.dict (Py.dict Spaghetti.Track))
    (idxs : list nat) (trks : list Spaghetti.Track) :
  Forall2 (fun i trk => member_track forecasts i = Py.Ok trk) idxs trks ->
  Forall (fun i => (i < 20)%nat) idxs ->
  Forall track_ok trks ->
  forall (l : list Mpl.Axes) (a : Mpl.Axes) acc,
    Nb.for_each (map Z.of_nat idxs) (Spaghetti.plot_member forecasts) acc
      (last_axes l a)
    = (last_axes l
         (add_lines (map (forecast_line Spaghetti.cornflowerblue) trks) a),
       Py.Ok (last_drawn acc trks)).
Proof.
  induction 1 as [|i trk idxs trks Hi _ IH]; intros Hlt Hok l a acc; cbn.
  - now rewrite add_lines_nil.
  - inversion Hlt as [|? ? Hi20 Hlt']; subst.
    inversion Hok as [|? ? Htrk Hok']; subst.
    apply Nat.eqb_eq in Htrk.
    unfold Nb.bind at 1.
    rewrite (plot_member_step forecasts acc l a Hi20), Hi, Htrk.
    rewrite (IH Hlt' Hok'), add_lines_cons.
    now rewrite (last_drawn_cons acc).
Qed.

Lemma seq_below (a m : nat) (k : nat) :
  (a + m <= k)%nat -> Forall (fun i => (i < k)%nat) (seq a m).
Proof.
  intros H; apply Forall_forall; intros i Hi; apply in_seq in Hi; lia.
Qed.

(** X4: when tropycal returned all 20 GFS members, each holds the
    initialization 2012102700, and every track (the storm's own too) has as
    many longitudes as latitudes, the cell draws the 20 forecast tracks in
    member order followed by the true path on the one Axes it created, 21
    lines in all, and ends without an exception. *)
Theorem spaghetti_members_all_present
    (forecasts : Py.dict (Py.dict Spaghetti.Track))
    (tracks : list Spaghetti.Track) (sandy_ds : Spaghetti.Track)
    (st : Mpl.pyplot) :
  Forall2 (fun i trk => member_track forecasts i = Py.Ok trk)
    (seq 0 20) tracks ->
  Forall track_ok tracks ->
  track_ok sandy_ds ->
  exists ax,
    Spaghetti.spaghetti_members forecasts sandy_ds st
    = (last_axes (Mpl.all_axes st) ax, Py.Ok tt)
    /\ Mpl.lines ax
       = map (forecast_line Spaghetti.cornflowerblue) tracks
         ++ [true_line "k" None sandy_ds]
    /\ List.length (Mpl.lines ax) = 21%nat.
Proof.
  intros Hall Hok Hsandy.
  pose proof (Forall2_length Hall) as Hlen; cbn in Hlen.
  unfold Spaghetti.spaghetti_members.
  unfold Nb.bind at 1; rewrite setup_axes_run.
  unfold Nb.bind at 1.
  change (Py.range 0 20) with (map Z.of_nat (seq 0 20)).
  rewrite (@members_loop forecasts (seq 0 20) tracks Hall
             (@seq_below 0 20 20 (le_n _)) Hok).
  unfold Nb.bind at 1; rewrite (plot_last _ _ _ _ _ _ _ Hsandy).
  unfold Nb.bind at 1, Nb.lift at 1; change (Py.getitem [?x] 0) with (Py.Ok x).
  cbv beta iota.
  assert (Hlast : exists t, last_drawn None tracks
                            = Some [forecast_line Spaghetti.cornflowerblue t]).
  { unfold last_drawn.
    destruct (rev tracks) as [|t r] eqn:E; [|now exists t].
    apply (f_equal (@List.length _)) in E.
    rewrite length_rev in E; cbn in E; lia. }
  destruct Hlast as [t ->].
  unfold Nb.bind, Nb.lift, Nb.exec; cbn [Nb.name Py.getitem].
  change (Py.getitem [?x] 0) with (Py.Ok x); cbv beta iota.
  rewrite legend_last, title_last.
  eexists; split; [reflexivity|].
  cbn [Mpl.lines Mpl.set_title Mpl.add_artist Mpl.add_line add_lines
       hurricane_axes app].
  split; [reflexivity|].
  rewrite length_app, length_map; cbn; lia.
Qed.

(** Twenty members with the same track. *)
Lemma spaghetti_members_all_present_witness :
  exists ax,
    Spaghetti.spaghetti_members example_members example_sandy empty_figure
    = (last_axes [] ax, Py.Ok tt)
    /\ Mpl.lines ax
       = map (forecast_line Spaghetti.cornflowerblue) (repeat example_sandy 20)
         ++ [true_line "k" None example_sandy]
    /\ List.length (Mpl.lines ax) = 21%nat.
Proof.
  apply (@spaghetti_members_all_present example_members
           (repeat example_sandy 20) example_sandy empty_figure).
  - repeat constructor.
  - repeat constructor.
  - reflexivity.
Defined.

(** X5: when the members before number j + 1 are present, with tracks
    of as many longitudes as latitudes, and member
    j + 1 (or its initialization 2012102700) is missing, the cell stops with
    the KeyError of that lookup after drawing exactly j forecast lines: the
    true path, the legend and the title are not reached, and the exception
    names the member's key or the initialization. *)
Theorem spaghetti_members_first_missing
    (forecasts : Py.dict (Py.dict Spaghetti.Track))
    (j : nat) (tracks : list Spaghetti.Track) (e : Py.exn)
    (sandy_ds : Spaghetti.Track) (st : Mpl.pyplot) :
  (j < 20)%nat ->
  Forall2 (fun i trk => member_track forecasts i = Py.Ok trk)
    (seq 0 j) tracks ->
  Forall track_ok tracks ->
  member_track forecasts j = Py.Raise e ->
  Spaghetti.spaghetti_members forecasts sandy_ds st
  = (last_axes (Mpl.all_axes st)
       (add_lines (map (forecast_line Spaghetti.cornflowerblue) tracks)
          hurricane_axes),
     Py.Raise e)
  /\ List.length
       (Mpl.lines
          (add_lines (map (forecast_line Spaghetti.cornflowerblue) tracks)
             hurricane_axes))
     = j
  /\ (e = Py.KeyError (member_key j) \/ e = Py.KeyError Spaghetti.time).
Proof.
  intros Hj Hpre Hok Hmiss.
  pose proof (Forall2_length Hpre) as Hlen; rewrite length_seq in Hlen.
  split; [|split].
  - unfold Spaghetti.spaghetti_members.
    unfold Nb.bind at 1; rewrite setup_axes_run.
    unfold Nb.bind at 1.
    change (Py.range 0 20) with (map Z.of_nat (seq 0 20)).
    replace 20%nat with (j + S (19 - j))%nat at 1 by lia.
    rewrite seq_app, map_app, for_each_app.
    rewrite (@members_loop forecasts (seq 0 j) tracks Hpre
               (@seq_below 0 j 20 ltac:(lia)) Hok).
    cbn [seq map Nb.for_each Nat.add].
    unfold Nb.bind at 1.
    rewrite (@plot_member_step forecasts j _ _ _ Hj), Hmiss.
    reflexivity.
  - cbn; now rewrite length_map.
  - unfold member_track in Hmiss.
    destruct (Py.lookup forecasts (member_key j)) as [ap|e'] eqn:E; cbn in Hmiss.
    + right; now apply lookup_raise_inv in Hmiss.
    + left; injection Hmiss as <-; now apply lookup_raise_inv in E.
Qed.

(** Only AP01, AP02 and AP03 were returned. *)
Lemma spaghetti_members_first_missing_witness :
  Spaghetti.spaghetti_members example_three_members example_sandy empty_figure
  = (last_axes []
       (add_lines
          (map (forecast_line Spaghetti.cornflowerblue)
             (repeat example_sandy 3))
          hurricane_axes),
     Py.Raise (Py.KeyError "AP04"))
  /\ List.length
       (Mpl.lines
          (add_lines
             (map (forecast_line Spaghetti.cornflowerblue)
                (repeat example_sandy 3))
             hurricane_axes))
     = 3%nat
  /\ (Py.KeyError "AP04" = Py.KeyError (member_key 3)
      \/ Py.KeyError "AP04" = Py.KeyError Spaghetti.time).
Proof.
  apply (@spaghetti_members_first_missing example_three_members 3
           (repeat example_sandy 3) (Py.KeyError "AP04") example_sandy
           empty_figure).
  - lia.
  - repeat constructor.
  - repeat constructor.
  - reflexivity.
Defined.

(** ** The colors and the years of the contour plot *)

(** The entry a float selects, from the box its product with [n] falls
    in. *)
Lemma call_float_between (n j : Z) (q : Q) :
  (0 <= j < n)%Z ->
  inject_Z j <= q * inject_Z n ->
  q * inject_Z n < inject_Z (j + 1) ->
  Mpl.call_float n q = Mpl.Entry j.
Proof.
  intros Hj Hlo Hhi.
  assert (H0 : 0 <= inject_Z j)
    by (change 0 with (inject_Z 0); rewrite <- Zle_Qle; lia).
  assert (Hn : inject_Z (j + 1) <= inject_Z n) by (rewrite <- Zle_Qle; lia).
  unfold Mpl.call_float.
  destruct (Qlt_le_dec _ 0) as [Hneg|_]; [lra|].
  destruct (Qeq_bool _ (inject_Z n)) eqn:Heq;
    [apply Qeq_bool_eq in Heq; lra|].
  rewrite (@Qfloor_between _ j) by assumption.
  destruct (Z.ltb_spec (n - 1) j); [lia|reflexivity].
Qed.

(** The 19 colors of the notebook's loop. *)
Lemma contour_entry_19 (x : nat) :
  (x < 19)%nat ->
  Contour.contour_entry (Z.of_nat x) = Py.Ok (Mpl.Entry (Z.of_nat x)).
Proof.
  intros Hx.
  do 19 (destruct x as [|x]; [reflexivity|]); lia.
Qed.

(** The samples of [np.linspace(0, 1, 19)] between the first and the last
    are the multiples of 1/18. *)
Lemma bounds_19 (bounds : list Q) (x : nat) (b : Q) :
  Contour.linspace 0 1 Spaghetti.n = Py.Ok bounds ->
  (0 < x < 18)%nat ->
  Py.getitem bounds (Z.of_nat x) = Py.Ok b ->
  b == inject_Z (Z.of_nat x) * (1 # 18).
Proof.
  intros Hb Hx Hg.
  injection Hb as <-.
  destruct x as [|x]; [lia|].
  do 17 (destruct x as [|x];
         [injection Hg as <-; vm_compute; reflexivity|]).
  lia.
Qed.

(** X6: with [n = 19], [bounds = np.linspace(0, 1, n)] and the 19-color
    colormap, [cmap(bounds)[x]] is entry [x] of the colormap for every [x]
    of the loop, 0 .. 18: each contour is drawn in a color of its own, the
    colors being taken in order.  The choice does not hang on the last
    digits of the samples: the first and the last sample are 0 and 1
    themselves, and every sample between them selects the same entry when
    it is off by up to 1/400. *)
Theorem contour_entry_own_color (x : Z) :
  (0 <= x < Spaghetti.n)%Z ->
  Contour.contour_entry x = Py.Ok (Mpl.Entry x)
  /\ (forall bounds : list Q,
        Contour.linspace 0 1 Spaghetti.n = Py.Ok bounds ->
        (exists b0 : Q, Py.getitem bounds 0 = Py.Ok b0 /\ b0 == 0)
        /\ Py.getitem bounds (Spaghetti.n - 1) = Py.Ok 1)
  /\ ((0 < x < Spaghetti.n - 1)%Z ->
      forall (bounds : list Q) (b d : Q),
        Contour.linspace 0 1 Spaghetti.n = Py.Ok bounds ->
        Py.getitem bounds x = Py.Ok b ->
        - (1 # 400) <= d -> d <= 1 # 400 ->
        Mpl.call_float Spaghetti.n (b + d) = Mpl.Entry x).
Proof.
  unfold Spaghetti.n; intros Hx.
  rewrite <- (Z2Nat.id x) by lia.
  split; [apply contour_entry_19; lia|].
  split.
  { intros bounds Hb; injection Hb as <-; split; [|reflexivity].
    eexists; split; reflexivity. }
  intros Hmid bounds b d Hb Hg Hlo Hhi.
  pose proof (@bounds_19 bounds (Z.to_nat x) b Hb ltac:(lia) Hg) as Eb.
  assert (H1 : 1 <= inject_Z (Z.of_nat (Z.to_nat x)))
    by (change 1 with (inject_Z 1); rewrite <- Zle_Qle; lia).
  assert (H17 : inject_Z (Z.of_nat (Z.to_nat x)) <= 17)
    by (change 17 with (inject_Z 17); rewrite <- Zle_Qle; lia).
  apply call_float_between; [lia| |].
  - change (inject_Z 19) with 19; rewrite Eb; lra.
  - rewrite inject_Z_plus; change (inject_Z 19) with 19.
    change (inject_Z 1) with 1; rewrite Eb; lra.
Qed.

(** The eighth of the 19 contours. *)
Lemma contour_entry_own_color_witness :
  Contour.contour_entry 7 = Py.Ok (Mpl.Entry 7)
  /\ Mpl.call_float Spaghetti.n ((7 # 18) + (1 # 400)) = Mpl.Entry 7.
Proof.
  pose proof (@contour_entry_own_color 7 ltac:(unfold Spaghetti.n; lia))
    as [Hentry [_ Hnear]].
  split; [exact Hentry|].
  destruct (Contour.linspace 0 1 Spaghetti.n) as [bounds|e] eqn:Hb;
    [|discriminate Hb].
  apply (Hnear ltac:(unfold Spaghetti.n; lia) bounds (7 # 18) (1 # 400) eq_refl).
  - injection Hb as <-; reflexivity.
  - lra.
  - lra.
Defined.

Lemma astype_int_fits (q : Q) :
  0 <= q -> q < inject_Z (2 ^ 63) -> Contour.astype_int q = Qfloor q.
Proof.
  intros Hq Hlt; unfold Contour.astype_int.
  destruct (Qlt_le_dec q 0) as [Hneg|_]; [lra|].
  assert (H0 : (0 <= Qfloor q)%Z)
    by (change 0%Z with (Qfloor 0); now apply Qfloor_resp_le).
  assert (H1 : (Qfloor q < 2 ^ 63)%Z).
  { rewrite Zlt_Qlt; apply Qle_lt_trans with q; [apply Qfloor_le|exact Hlt]. }
  unfold Contour.int64_min, Contour.int64_max.
  destruct (Z.leb_spec (- 2 ^ 63) (Qfloor q)); [|lia].
  destruct (Z.leb_spec (Qfloor q) (2 ^ 63 - 1)); [reflexivity|lia].
Qed.

Lemma astype_int_too_large (q : Q) :
  inject_Z (2 ^ 63) <= q -> Contour.astype_int q = Contour.int64_min.
Proof.
  intros Hq; unfold Contour.astype_int.
  assert (H0 : 0 <= q).
  { apply Qle_trans with (inject_Z (2 ^ 63)); [|exact Hq].
    change 0 with (inject_Z 0); rewrite <- Zle_Qle; lia. }
  destruct (Qlt_le_dec q 0) as [Hneg|_]; [lra|].
  assert (H1 : (2 ^ 63 <= Qfloor q)%Z).
  { rewrite <- (Qfloor_Z (2 ^ 63)); now apply Qfloor_resp_le. }
  unfold Contour.int64_max.
  destruct (Z.leb_spec (Qfloor q) (2 ^ 63 - 1)); [lia|].
  now rewrite Bool.andb_false_r.
Qed.

Lemma int64_add_fits (a b : Z) :
  (- 2 ^ 63 <= a + b < 2 ^ 63)%Z -> Contour.int64_add a b = (a + b)%Z.
Proof.
  intros H; unfold Contour.int64_add.
  rewrite Z.mod_small by lia; lia.
Qed.

(** X7: [year_n] is [year_0] plus the whole years in the value [m] that
    the time coordinate holds at time step [12 * n], for [0 <= m < 2**53];
    it equals [year_0 + n], which the colorbar ticks rely on, exactly when
    [12 * n <= m < 12 * (n + 1)], that is when the coordinate counts months
    from [year_0].  A value whose twelfth does not fit in 64 bits is cast
    to [-2**63], so that [year_n] is [-2**63 + 1958]; a coordinate with no
    time step [12 * n] makes the cell raise IndexError. *)
Theorem year_n_counts_years (time : list Q) :
  (forall m : Q,
      Py.getitem time (12 * Spaghetti.n) = Py.Ok m ->
      0 <= m -> m < inject_Z (2 ^ 53) ->
      Contour.year_n time = Py.Ok (Qfloor (m / 12) + Spaghetti.year_0)%Z
      /\ ((Qfloor (m / 12) + Spaghetti.year_0 - Spaghetti.year_0
           = Spaghetti.n)%Z
          <-> inject_Z (12 * Spaghetti.n) <= m
              /\ m < inject_Z (12 * (Spaghetti.n + 1))))
  /\ (forall m : Q,
        Py.getitem time (12 * Spaghetti.n) = Py.Ok m ->
        inject_Z (12 * 2 ^ 63) <= m ->
        Contour.year_n time = Py.Ok (-9223372036854773850)%Z)
  /\ ((List.length time <= 228)%nat ->
      Contour.year_n time = Py.Raise Py.IndexError).
Proof.
  split; [|split].
  - intros m Hm Hpos Hbig; unfold Contour.year_n; rewrite Hm, bind_Ok.
    assert (Em : m == m / 12 * 12) by field.
    assert (H12 : 0 <= m / 12)
      by (apply Qle_shift_div_l; [reflexivity|lra]).
    assert (E53 : inject_Z (2 ^ 53) == 9007199254740992) by reflexivity.
    assert (E63 : inject_Z (2 ^ 63) == 9223372036854775808) by reflexivity.
    pose proof (Qfloor_le (m / 12)) as Hf1.
    pose proof (Qlt_floor (m / 12)) as Hf2.
    assert (Hfit : m / 12 < inject_Z (2 ^ 63)) by (rewrite E63; lra).
    rewrite (astype_int_fits H12 Hfit).
    assert (Hf0 : (0 <= Qfloor (m / 12))%Z)
      by (change 0%Z with (Qfloor 0); now apply Qfloor_resp_le).
    assert (Hf53 : (Qfloor (m / 12) < 2 ^ 53)%Z).
    { rewrite Zlt_Qlt; apply Qle_lt_trans with (m / 12); [exact Hf1|].
      rewrite E53; lra. }
    rewrite int64_add_fits by (unfold Spaghetti.year_0; lia).
    split; [reflexivity|].
    change (inject_Z (12 * Spaghetti.n)) with 228.
    change (inject_Z (12 * (Spaghetti.n + 1))) with 240.
    unfold Spaghetti.n; split.
    + intros E.
      assert (E' : Qfloor (m / 12) = 19%Z) by lia.
      rewrite E' in Hf1, Hf2.
      change (inject_Z 19) with 19 in Hf1.
      change (inject_Z (19 + 1)) with 20 in Hf2.
      split; lra.
    + intros [Hlo Hhi].
      rewrite (@Qfloor_between (m / 12) 19); [lia| |].
      * change (inject_Z 19) with 19; lra.
      * change (inject_Z (19 + 1)) with 20; lra.
  - intros m Hm Hbig; unfold Contour.year_n; rewrite Hm, bind_Ok.
    assert (Em : m == m / 12 * 12) by field.
    assert (E : inject_Z (12 * 2 ^ 63) == 12 * inject_Z (2 ^ 63))
      by reflexivity.
    rewrite astype_int_too_large by lra.
    reflexivity.
  - intros Hlen; unfold Contour.year_n.
    change (12 * Spaghetti.n)%Z with (Z.of_nat 228).
    rewrite getitem_nat.
    destruct (nth_error time 228) eqn:E; [|reflexivity].
    assert (Hsome : nth_error time 228 <> None) by congruence.
    apply nth_error_Some in Hsome; lia.
Qed.

(** The coordinate of the data set's forty years, one whose value at
    time step 228 is 1.2e20, and one that is too short. *)
Lemma year_n_counts_years_witness :
  (Contour.year_n example_time
   = Py.Ok (Qfloor (228 / 12) + Spaghetti.year_0)%Z
   /\ ((Qfloor (228 / 12) + Spaghetti.year_0 - Spaghetti.year_0
        = Spaghetti.n)%Z
       <-> inject_Z (12 * Spaghetti.n) <= 228
           /\ 228 < inject_Z (12 * (Spaghetti.n + 1))))
  /\ Contour.year_n (repeat 0 228 ++ [120000000000000000000])
     = Py.Ok (-9223372036854773850)%Z
  /\ Contour.year_n [0; 1] = Py.Raise Py.IndexError.
Proof.
  split; [|split].
  - apply (proj1 (year_n_counts_years example_time) 228).
    + reflexivity.
    + lra.
    + reflexivity.
  - apply (proj1 (proj2 (year_n_counts_years
                           (repeat 0 228 ++ [120000000000000000000])))
             120000000000000000000).
    + reflexivity.
    + vm_compute; discriminate.
  - apply (proj2 (proj2 (year_n_counts_years [0; 1]))); simpl; lia.
Defined.

(** ** The contour loops *)

Lemma drawn_at_beyond {F B : Type} (HGT : list F) (mk : nat -> F -> B)
    (idx : nat -> nat) (xs : list nat) :
  Forall (fun x => (List.length HGT <= idx x)%nat) xs ->
  drawn_at HGT mk idx xs = [].
Proof.
  unfold drawn_at; induction 1 as [|x xs Hx _ IH]; cbn; [reflexivity|].
  apply nth_error_None in Hx; now rewrite Hx, IH.
Qed.

(** A loop whose body reads time step [idx x] and then draws: it draws
    while the time steps exist and stops with IndexError at the first that
    does not. *)
Lemma draw_each_isel {F B : Type} (HGT : list F) (mk : nat -> F -> B)
    (idx : nat -> nat) (body : Z -> Py.result B) (m : nat) :
  (forall x y, (x <= y)%nat -> (idx x <= idx y)%nat) ->
  forall (a : nat) (drawn : list B),
    (forall x, (a <= x < a + m)%nat ->
               body (Z.of_nat x)
               = match nth_error HGT (idx x) with
                 | Some p => Py.Ok (mk x p)
                 | None => Py.Raise Py.IndexError
                 end) ->
    Contour.draw_each body (map Z.of_nat (seq a m)) drawn
    = (drawn ++ drawn_at HGT mk idx (seq a m),
       isel_outcome HGT idx (seq a m)).
Proof.
  intros Hmono; induction m as [|m IH]; intros a drawn Hbody.
  - cbn; now rewrite app_nil_r.
  - cbn [seq map Contour.draw_each].
    rewrite (Hbody a) by lia.
    unfold isel_outcome, drawn_at; cbn [forallb flat_map].
    destruct (nth_error HGT (idx a)) as [p|] eqn:E.
    + assert (Hlt : (idx a < List.length HGT)%nat)
        by (apply nth_error_Some; congruence).
      apply Nat.ltb_lt in Hlt; rewrite Hlt; cbn [andb].
      rewrite IH by (intros x Hx; apply Hbody; lia).
      now rewrite <- app_assoc.
    + apply nth_error_None in E.
      assert (Hge : (idx a <? List.length HGT)%nat = false)
        by (apply Nat.ltb_ge; exact E).
      rewrite Hge; cbn [andb app].
      fold (drawn_at HGT mk idx (seq (S a) m)).
      rewrite drawn_at_beyond, app_nil_r; [reflexivity|].
      apply Forall_forall; intros x Hx; apply in_seq in Hx.
      specialize (Hmono a x ltac:(lia)); lia.
Qed.

Lemma isel_outcome_last {F : Type} (HGT : list F) (idx : nat -> nat)
    (m : nat) :
  (forall x y, (x <= y)%nat -> (idx x <= idx y)%nat) ->
  isel_outcome HGT idx (seq 0 (S m))
  = if (idx m <? List.length HGT)%nat then Py.Ok tt
    else Py.Raise Py.IndexError.
Proof.
  intros Hmono; unfold isel_outcome.
  destruct (idx m <? List.length HGT)%nat eqn:E.
  - apply Nat.ltb_lt in E.
    replace (forallb _ _) with true; [reflexivity|].
    symmetry; apply forallb_forall; intros x Hx; apply in_seq in Hx.
    apply Nat.ltb_lt; specialize (Hmono x m ltac:(lia)); lia.
  - destruct (forallb _ _) eqn:Hall; [|reflexivity].
    rewrite forallb_forall in Hall.
    rewrite (Hall m) in E; [discriminate|].
    apply in_seq; lia.
Qed.

Lemma drawn_at_length {F B : Type} (HGT : list F) (mk : nat -> F -> B)
    (idx : nat -> nat) (xs : list nat) :
  List.length (drawn_at HGT mk idx xs)
  = List.length (filter (fun x => (idx x <? List.length HGT)%nat) xs).
Proof.
  unfold drawn_at; induction xs as [|x xs IH]; [reflexivity|].
  cbn [flat_map filter]; rewrite length_app, IH.
  destruct (nth_error HGT (idx x)) eqn:E.
  - assert (Hlt : (idx x < List.length HGT)%nat)
      by (apply nth_error_Some; congruence).
    apply Nat.ltb_lt in Hlt; now rewrite Hlt.
  - apply nth_error_None in E.
    assert (Hge : (idx x <? List.length HGT)%nat = false)
      by (apply Nat.ltb_ge; exact E).
    now rewrite Hge.
Qed.

Lemma drawn_at_all {F B : Type} (HGT : list F) (mk : nat -> F -> B)
    (idx : nat -> nat) (xs : list nat) :
  Forall (fun x => (idx x < List.length HGT)%nat) xs ->
  List.length (drawn_at HGT mk idx xs) = List.length xs.
Proof.
  intros H; rewrite drawn_at_length.
  induction H as [|x xs Hx _ IH]; [reflexivity|].
  cbn [filter]; apply Nat.ltb_lt in Hx; rewrite Hx.
  cbn [List.length]; now rewrite IH.
Qed.

Lemma getitem_times12 {F : Type} (HGT : list F) (x b : nat) :
  Py.getitem HGT (12 * Z.of_nat x + Z.of_nat b)
  = match nth_error HGT (12 * x + b) with
    | Some p => Py.Ok p
    | None => Py.Raise Py.IndexError
    end.
Proof.
  replace (12 * Z.of_nat x + Z.of_nat b)%Z with (Z.of_nat (12 * x + b)) by lia.
  apply getitem_nat.
Qed.

Lemma times12_monotone (b x y : nat) :
  (x <= y)%nat -> (12 * x + b <= 12 * y + b)%nat.
Proof.
  lia.
Qed.

(** X8: the loop with the temporal colors draws, from a data set with
    [L] time steps, the contours of the time steps 0, 12, 24, ... that
    exist, contour [x] in entry [x] of the colormap; with more than 216 time
    steps it draws all 19 and ends normally, otherwise it stops with
    IndexError at the first time step that does not exist, keeping the
    contours drawn before. *)
Theorem temporal_contours_run (F : Type) (cyc : F -> F) (HGT : list F) :
  Contour.temporal_contours cyc HGT
  = (drawn_at HGT (entry_set cyc) (fun x => (12 * x + 0)%nat) (seq 0 19),
     if (216 <? List.length HGT)%nat then Py.Ok tt
     else Py.Raise Py.IndexError)
  /\ ((216 < List.length HGT)%nat ->
      List.length (fst (Contour.temporal_contours cyc HGT)) = 19%nat).
Proof.
  assert (Hrun : Contour.temporal_contours cyc HGT
                 = (drawn_at HGT (entry_set cyc)
                      (fun x => (12 * x + 0)%nat) (seq 0 19),
                    if (216 <? List.length HGT)%nat then Py.Ok tt
                    else Py.Raise Py.IndexError)).
  { unfold Contour.temporal_contours.
    destruct (Contour.linspace 0 1 Spaghetti.n) as [bounds|e] eqn:Eb.
    - change (Py.range 0 Spaghetti.n) with (map Z.of_nat (seq 0 19)).
      rewrite (@draw_each_isel F _ HGT (entry_set cyc)
                 (fun x => (12 * x + 0)%nat) _ 19 (times12_monotone 0) 0 []).
      + now rewrite (@isel_outcome_last F HGT _ 18 (times12_monotone 0)).
      + intros x Hx.
        replace (12 * Z.of_nat x)%Z with (12 * Z.of_nat x + Z.of_nat 0)%Z
          by lia.
        rewrite getitem_times12.
        destruct (nth_error HGT (12 * x + 0)) as [p|]; [|reflexivity].
        rewrite bind_Ok.
        pose proof (@contour_entry_19 x ltac:(lia)) as Hc.
        unfold Contour.contour_entry in Hc.
        rewrite Eb, bind_Ok in Hc.
        now rewrite Hc.
    - pose proof (@contour_entry_19 0 ltac:(lia)) as Hc.
      unfold Contour.contour_entry in Hc.
      rewrite Eb in Hc; discriminate. }
  split; [exact Hrun|].
  intros HL; rewrite Hrun; cbn [fst].
  rewrite drawn_at_all; [reflexivity|].
  apply Forall_forall; intros x Hx; apply in_seq in Hx; lia.
Qed.

(** A data set of 228 time steps, the field being its number. *)
Lemma temporal_contours_run_witness :
  List.length (fst (Contour.temporal_contours (fun p : nat => p) (seq 0 228)))
  = 19%nat.
Proof.
  apply (proj2 (temporal_contours_run (fun p : nat => p) (seq 0 228))).
  rewrite length_seq; lia.
Defined.

(** X9: the cell with hand-picked colors draws time step 0 in black and
    then the time steps 1, 13, 25, ... in the first 18 colors of
    [colorlist], in order; no index into [colorlist] is out of range and its
    19th color, violet, is never used.  With no time step at all nothing is
    drawn; with at most 205 the loop stops with IndexError at the first
    missing time step. *)
Theorem handpicked_contours_run (F : Type) (cyc : F -> F) (HGT : list F) :
  Contour.handpicked_contours cyc HGT
  = match HGT with
    | [] => ([], Py.Raise Py.IndexError)
    | p0 :: _ =>
        (black_set cyc p0
         :: drawn_at HGT (handpicked_set cyc) (fun x => (12 * x + 1)%nat)
              (seq 0 18),
         if (205 <? List.length HGT)%nat then Py.Ok tt
         else Py.Raise Py.IndexError)
    end
  /\ Forall (fun c => Contour.colors c <> Contour.ByName "violet")
       (fst (Contour.handpicked_contours cyc HGT)).
Proof.
  assert (Hrun : Contour.handpicked_contours cyc HGT
                 = match HGT with
                   | [] => ([], Py.Raise Py.IndexError)
                   | p0 :: _ =>
                       (black_set cyc p0
                        :: drawn_at HGT (handpicked_set cyc)
                             (fun x => (12 * x + 1)%nat) (seq 0 18),
                        if (205 <? List.length HGT)%nat then Py.Ok tt
                        else Py.Raise Py.IndexError)
                   end).
  { unfold Contour.handpicked_contours, Contour.contour_at.
    destruct HGT as [|p0 HGT']; [reflexivity|].
    change (Py.getitem (p0 :: HGT') 0) with (Py.Ok p0); rewrite bind_Ok.
    change (Py.range 0 18) with (map Z.of_nat (seq 0 18)).
    rewrite (@draw_each_isel F _ (p0 :: HGT') (handpicked_set cyc)
               (fun x => (12 * x + 1)%nat) _ 18 (times12_monotone 1) 0
               [black_set cyc p0]).
    - now rewrite (@isel_outcome_last F (p0 :: HGT') _ 17
                     (times12_monotone 1)).
    - intros x Hx.
      change 1%Z with (Z.of_nat 1); rewrite getitem_times12.
      destruct (nth_error (p0 :: HGT') (12 * x + 1)) as [p|]; [|reflexivity].
      rewrite bind_Ok, getitem_nat.
      rewrite (nth_error_nth' Contour.colorlist "")
        by (change (List.length Contour.colorlist) with 19%nat; lia).
      reflexivity. }
  split; [exact Hrun|].
  rewrite Hrun; destruct HGT as [|p0 HGT']; [constructor|].
  cbn [fst]; constructor; [discriminate|].
  apply Forall_forall; intros c Hc.
  unfold drawn_at in Hc; apply in_flat_map in Hc.
  destruct Hc as [x [Hx Hc]]; apply in_seq in Hx.
  destruct (nth_error (p0 :: HGT') (12 * x + 1)) as [p|]; [|contradiction].
  destruct Hc as [<-|[]]; cbn [Contour.colors handpicked_set].
  do 18 (destruct x as [|x]; [cbn; discriminate|]); lia.
Qed.

(** X10: the two loops with blue contours draw, from the time steps that
    exist, 19 contours each: the first at the time steps 0, 12, ..., 216,
    ending normally when the data set has more than 216 time steps, the
    second at 1, 13, ..., 217, ending normally when it has more than 217;
    otherwise they stop with IndexError and keep the contours drawn. *)
Theorem blue_contours_run (F : Type) (cyc : F -> F) (HGT : list F) :
  Contour.blue_contours cyc HGT
  = (drawn_at HGT (blue_set cyc) (fun x => (12 * x + 0)%nat) (seq 0 19),
     if (216 <? List.length HGT)%nat then Py.Ok tt
     else Py.Raise Py.IndexError)
  /\ Contour.blue_contours_shifted cyc HGT
     = (drawn_at HGT (blue_set cyc) (fun x => (12 * x + 1)%nat) (seq 0 19),
        if (217 <? List.length HGT)%nat then Py.Ok tt
        else Py.Raise Py.IndexError)
  /\ ((217 < List.length HGT)%nat ->
      List.length (fst (Contour.blue_contours cyc HGT)) = 19%nat
      /\ List.length (fst (Contour.blue_contours_shifted cyc HGT)) = 19%nat).
Proof.
  assert (H1 : Contour.blue_contours cyc HGT
               = (drawn_at HGT (blue_set cyc)
                    (fun x => (12 * x + 0)%nat) (seq 0 19),
                  if (216 <? List.length HGT)%nat then Py.Ok tt
                  else Py.Raise Py.IndexError)).
  { unfold Contour.blue_contours, Contour.contour_at.
    change (Py.range 0 Spaghetti.n) with (map Z.of_nat (seq 0 19)).
    rewrite (@draw_each_isel F _ HGT (blue_set cyc)
               (fun x => (12 * x + 0)%nat) _ 19 (times12_monotone 0) 0 []).
    - now rewrite (@isel_outcome_last F HGT _ 18 (times12_monotone 0)).
    - intros x Hx.
      replace (12 * Z.of_nat x)%Z with (12 * Z.of_nat x + Z.of_nat 0)%Z
        by lia.
      rewrite getitem_times12.
      destruct (nth_error HGT (12 * x + 0)); reflexivity. }
  assert (H2 : Contour.blue_contours_shifted cyc HGT
               = (drawn_at HGT (blue_set cyc)
                    (fun x => (12 * x + 1)%nat) (seq 0 19),
                  if (217 <? List.length HGT)%nat then Py.Ok tt
                  else Py.Raise Py.IndexError)).
  { unfold Contour.blue_contours_shifted, Contour.contour_at.
    change (Py.range 0 19) with (map Z.of_nat (seq 0 19)).
    rewrite (@draw_each_isel F _ HGT (blue_set cyc)
               (fun x => (12 * x + 1)%nat) _ 19 (times12_monotone 1) 0 []).
    - now rewrite (@isel_outcome_last F HGT _ 18 (times12_monotone 1)).
    - intros x Hx.
      change 1%Z with (Z.of_nat 1); rewrite getitem_times12.
      destruct (nth_error HGT (12 * x + 1)); reflexivity. }
  split; [exact H1|split; [exact H2|]].
  intros HL; rewrite H1, H2; cbn [fst].
  split; (rewrite drawn_at_all; [reflexivity|]);
    apply Forall_forall; intros x Hx; apply in_seq in Hx; lia.
Qed.

(** A data set of 228 time steps. *)
Lemma blue_contours_run_witness :
  List.length (fst (Contour.blue_contours (fun p : nat => p) (seq 0 228)))
  = 19%nat
  /\ List.length
       (fst (Contour.blue_contours_shifted (fun p : nat => p) (seq 0 228)))
     = 19%nat.
Proof.
  apply (proj2 (proj2 (blue_contours_run (fun p : nat => p) (seq 0 228)))).
  rewrite length_seq; lia.
Defined.

(** ** Which label stands at which longitude *)

(** X11: the text the label loop draws at the tick of longitude [x] reads
    [x]E for 0 < x < 180 and [x - 180]W for x > 180 ('0' and '180' at 0 and
    180): the western labels run 30W, 60W, ..., 150W in the direction of
    growing longitude.  The meridian [x] degrees east being [360 - x] degrees
    west, the label is the name of its meridian at eight of the twelve ticks
    and differs from it at 210, 240, 300 and 330. *)
Theorem directional_labels_by_longitude (ax : nat) (st : Mpl.pyplot)
    (a : Mpl.Axes) :
  nth_error (Mpl.all_axes st) ax = Some a ->
  exists st' new_texts,
    Spaghetti.directional_labels ax st = (st', Py.Ok tt)
    /\ nth_error (Mpl.all_axes st') ax
       = Some (Mpl.mkAxes (Mpl.projection a) (Mpl.lines a)
                 (Mpl.texts a ++ new_texts) (Mpl.artists a) (Mpl.title a))
    /\ map (fun t => (Mpl.text_x t, Mpl.text_s t)) new_texts
       = map (fun x => (x, drawn_label x)) twelve_xticks
    /\ filter (fun x => negb (String.eqb (drawn_label x) (meridian_name x)))
         twelve_xticks
       = [210; 240; 300; 330]%Z.
Proof.
  intros Ha.
  destruct (@directional_labels_run ax st a Ha) as [st' [Hrun [_ [_ Hax]]]].
  exists st', twelve_texts.
  split; [exact Hrun|].
  split; [exact Hax|].
  split; reflexivity.
Qed.

(** The label loop on a fresh polar-stereographic Axes. *)
Lemma directional_labels_by_longitude_witness :
  exists st' new_texts,
    Spaghetti.directional_labels 0
      (fst (Mpl.axes "NorthPolarStereo" empty_figure))
    = (st', Py.Ok tt)
    /\ nth_error (Mpl.all_axes st') 0
       = Some (Mpl.mkAxes "NorthPolarStereo" [] ([] ++ new_texts) [] None)
    /\ map (fun t => (Mpl.text_x t, Mpl.text_s t)) new_texts
       = map (fun x => (x, drawn_label x)) twelve_xticks
    /\ filter (fun x => negb (String.eqb (drawn_label x) (meridian_name x)))
         twelve_xticks
       = [210; 240; 300; 330]%Z.
Proof.
  apply (@directional_labels_by_longitude 0
           (fst (Mpl.axes "NorthPolarStereo" empty_figure))
           (Mpl.new_axes "NorthPolarStereo")).
  reflexivity.
Defined.

(** ** A track whose longitudes and latitudes differ in number *)

(** X12: [plt.plot] refuses a track with more longitudes than latitudes or
    the reverse.  When the first such track of [forecasts_AP01] stands after
    the tracks [pre], the cell "Spaghetti Plot of AP01 forecasts" stops with
    ValueError in that iteration, the Axes holding the lines of [pre] and
    nothing else; when only the storm's own track is such, the cell stops
    with ValueError at the true path, the Axes holding the forecast lines
    alone. *)
Theorem spaghetti_AP01_mismatched_track
    (forecasts : Py.dict (Py.dict Spaghetti.Track))
    (forecasts_AP01 : Py.dict Spaghetti.Track)
    (sandy_ds : Spaghetti.Track) (st : Mpl.pyplot) :
  Py.lookup forecasts "AP01" = Py.Ok forecasts_AP01 ->
  Py.wf forecasts_AP01 ->
  (forall (pre post : Py.dict Spaghetti.Track) (k : string)
          (trk : Spaghetti.Track),
      forecasts_AP01 = pre ++ (k, trk) :: post ->
      Forall track_ok (map snd pre) ->
      ~ track_ok trk ->
      Spaghetti.spaghetti_AP01 forecasts sandy_ds st
      = (last_axes (Mpl.all_axes st)
           (add_lines
              (map (forecast_line Spaghetti.cornflowerblue) (map snd pre))
              hurricane_axes),
         Py.Raise Py.ValueError))
  /\ (Forall track_ok (map snd forecasts_AP01) ->
      ~ track_ok sandy_ds ->
      Spaghetti.spaghetti_AP01 forecasts sandy_ds st
      = (last_axes (Mpl.all_axes st)
           (add_lines
              (map (forecast_line Spaghetti.cornflowerblue)
                 (map snd forecasts_AP01))
              hurricane_axes),
         Py.Raise Py.ValueError)).
Proof.
  intros Hap Hwf; split.
  - intros pre post k trk E Hpre Hbad.
    unfold Spaghetti.spaghetti_AP01.
    unfold Nb.bind at 1; rewrite setup_axes_run.
    unfold Nb.bind at 1, Nb.lift at 1; rewrite Hap.
    unfold Nb.bind at 1; unfold Py.keys at 1.
    rewrite E at 1; rewrite map_app, for_each_app.
    rewrite forecast_loop;
      [|intros k' t' Hin; apply lookup_wf; [assumption|];
        rewrite E; apply in_or_app; now left
       |assumption].
    cbn [map fst Nb.for_each].
    unfold Nb.bind at 1, Spaghetti.plot_forecast, Nb.bind, Nb.lift.
    rewrite (@lookup_wf _ forecasts_AP01 k trk Hwf)
      by (rewrite E; apply in_or_app; right; now left).
    now rewrite (plot_mismatch _ _ _ _ _ _ _ Hbad).
  - intros Hok Hbad.
    unfold Spaghetti.spaghetti_AP01.
    unfold Nb.bind at 1; rewrite setup_axes_run.
    unfold Nb.bind at 1, Nb.lift at 1; rewrite Hap.
    unfold Nb.bind at 1; unfold Py.keys at 1.
    rewrite forecast_loop by (assumption || (intros; now apply lookup_wf)).
    unfold Nb.bind at 1.
    now rewrite (plot_mismatch _ _ _ _ _ _ _ Hbad).
Qed.

(** A forecast with two longitudes and one latitude after a sound one, and
    the storm's own track with two longitudes and one latitude. *)
Lemma spaghetti_AP01_mismatched_track_witness :
  Spaghetti.spaghetti_AP01
    [("AP01", [("2012102206", example_sandy);
               ("2012102212", Spaghetti.mkTrack [-77; -77.5] [14])])]
    example_sandy empty_figure
  = (last_axes []
       (add_lines [forecast_line Spaghetti.cornflowerblue example_sandy]
          hurricane_axes),
     Py.Raise Py.ValueError)
  /\ Spaghetti.spaghetti_AP01
       [("AP01", [("2012102206", example_sandy)])]
       (Spaghetti.mkTrack [-77; -77.5] [14]) empty_figure
     = (last_axes []
          (add_lines [forecast_line Spaghetti.cornflowerblue example_sandy]
             hurricane_axes),
        Py.Raise Py.ValueError).
Proof.
  split.
  - apply (proj1
             (@spaghetti_AP01_mismatched_track
                [("AP01", [("2012102206", example_sandy);
                           ("2012102212",
                            Spaghetti.mkTrack [-77; -77.5] [14])])]
                [("2012102206", example_sandy);
                 ("2012102212", Spaghetti.mkTrack [-77; -77.5] [14])]
                example_sandy empty_figure eq_refl
                ltac:(unfold Py.wf; cbn; repeat constructor; cbn;
                      intuition discriminate))
             [("2012102206", example_sandy)] [] "2012102212"
             (Spaghetti.mkTrack [-77; -77.5] [14]) eq_refl).
    + repeat constructor.
    + unfold track_ok; cbn; discriminate.
  - apply (proj2
             (@spaghetti_AP01_mismatched_track
                [("AP01", [("2012102206", example_sandy)])]
                [("2012102206", example_sandy)]
                (Spaghetti.mkTrack [-77; -77.5] [14]) empty_figure eq_refl
                ltac:(unfold Py.wf; cbn; repeat constructor; cbn;
                      intuition discriminate))).
    + repeat constructor.
    + unfold track_ok; cbn; discriminate.
Defined.
